(** * FloodImpactMapping: raster-vector category resolution and aggregation

    A shallow embedding of the category resolvers
    ([check_flood_at_point] of [analyze_flood_accuracy.py] and
    [FloodImpactMapper.get_flood_category_at_point] of
    [flood_impact_mapper.py]), of the line sampler
    [get_max_flood_for_line], of the deduplicator
    [filter_unique_features] and of the aggregator
    [analyze_flood_accuracy].

    Coordinates are rationals, raster cells are integers, Python
    exceptions are an explicit [Raise] outcome, and the behaviour of the
    geographic libraries the code calls (reprojection, buffering, the
    affine cell lookup, the window and the geometry mask of
    [rasterio.mask.mask]) is a record of functions the resolvers are
    parameterised by. *)

From Stdlib Require Import ZArith QArith Qround List String Bool Lia Lqa.
Import ListNotations.

Local Open Scope Z_scope.

(** ** Python exceptions as an error monad *)

Inductive exn : Type :=
| ValueError
| KeyError (k : Z)
| IndexError
| OverflowError
| CRSError.

Inductive result (A : Type) : Type :=
| Ok (a : A)
| Raise (e : exn).

Arguments Ok {A} a.
Arguments Raise {A} e.

Definition bind {A B : Type} (m : result A) (k : A -> result B) : result B :=
  match m with
  | Ok a => k a
  | Raise e => Raise e
  end.

(** [try: ... except Exception: handler] *)
Definition try_except {A : Type} (body : result A) (handler : exn -> result A)
  : result A :=
  match body with
  | Ok a => Ok a
  | Raise e => handler e
  end.

Notation "x <- m ;; k" := (bind m (fun x => k))
  (at level 61, m at next level, right associativity).

(** ** The raster *)

Definition Coord : Type := (Q * Q)%type.

(** A single-band raster: the decoded band (row major) and the no-data
    value its metadata declares ([flood_src.nodata], possibly [None]). *)
Record Raster : Type := mkRaster {
  band : list (list Z);
  nodata : option Z
}.

(** [flood_src.height], [flood_data.shape[0]] *)
Definition height (r : Raster) : Z := Z.of_nat (List.length (band r)).

(** [flood_src.width], [flood_data.shape[1]] *)
Definition width (r : Raster) : Z := Z.of_nat (List.length (hd [] (band r))).

(** [flood_data[row, col]], also
    [flood_src.read(1, window=((row, row+1), (col, col+1)))[0, 0]];
    only called on indices that passed the bounds test. *)
Definition cell (r : Raster) (row col : Z) : Z :=
  nth (Z.to_nat col) (nth (Z.to_nat row) (band r) []) 0.

(** [0 <= row < height and 0 <= col < width] *)
Definition in_bounds (r : Raster) (row col : Z) : bool :=
  (0 <=? row) && (row <? height r) && (0 <=? col) && (col <? width r).

(** A cell that a masked read ([masked=True]) hides: its value is the
    declared no-data value. *)
Definition is_nodata (r : Raster) (v : Z) : bool :=
  match nodata r with
  | Some s => v =? s
  | None => false
  end.

(** ** The geographic libraries

    What geopandas, shapely and rasterio do for one raster (its
    coordinate reference and its affine transform). *)
Record GeoLib : Type := mkGeoLib {
  Shape : Type;
  (** [GeoDataFrame(geometry=[point], crs="EPSG:4326").to_crs(crs)] and
      the reading of [.x], [.y] of the result; raises when the point has
      no finite image in the raster's reference (a failed reprojection,
      an empty point, a coordinate [rowcol] cannot floor). *)
  to_crs : Coord -> result Coord;
  (** [point_geom.buffer(distance)] *)
  buffer : Coord -> Q -> Shape;
  (** [rasterio.transform.rowcol(transform, x, y)] *)
  rowcol : Coord -> Z * Z;
  (** The cells of the window [mask(..., crop=True)] crops to; raises
      [ValueError] when the shape does not overlap the raster. *)
  window_of : Shape -> result (list (Z * Z));
  (** [geometry_mask]: whether the cell lies inside the shape. *)
  covers : Shape -> Z * Z -> bool;
  (** [line.interpolate(distance, normalized=...)] *)
  interpolate : list Coord -> Q -> bool -> Coord;
  (** Whether a point intersects [box(bounds.left, bounds.bottom,
      bounds.right, bounds.top)], the raster's footprint. *)
  footprint : Coord -> bool
}.

(** Sequencing a fallible function over a list, left to right. *)
Fixpoint map_result {A B : Type} (f : A -> result B) (l : list A)
  : result (list B) :=
  match l with
  | [] => Ok []
  | x :: xs => y <- f x ;; ys <- map_result f xs ;; Ok (y :: ys)
  end.

(** [mask(flood_src, [mapping(buffer)], crop=True, nodata=0)]: the
    cropped window is read masked, the cells outside the shape are
    masked too, and every masked cell is filled with 0. *)
Definition mask (g : GeoLib) (r : Raster) (s : Shape g) : result (list Z) :=
  w <- window_of g s ;;
  Ok (map (fun rc : Z * Z =>
             let v := cell r (fst rc) (snd rc) in
             if covers g s rc && negb (is_nodata r v) then v else 0) w).

(** [np.max]: raises [ValueError] on an empty array. *)
Definition np_max (l : list Z) : result Z :=
  match l with
  | [] => Raise ValueError
  | x :: xs => Ok (fold_left Z.max xs x)
  end.

(** ** analyze_flood_accuracy.py *)

Module Analyzer.

(** [check_flood_at_point(point, flood_src, search_distance)] *)
Definition check_flood_at_point (g : GeoLib) (point : Coord)
  (flood_src : Raster) (search_distance : Q) : result Z :=
  try_except
    (point_geom <- to_crs g point ;;
     let buffer := buffer g point_geom search_distance in
     let '(row, col) := rowcol g point_geom in
     let within_buffer :=
       masked_data <- mask g flood_src buffer ;;
       max_value <- np_max masked_data ;;
       if 0 <? max_value then Ok max_value else Ok 0 in
     if in_bounds flood_src row col then
       let flood_value := cell flood_src row col in
       if 0 <? flood_value then Ok flood_value else within_buffer
     else within_buffer)
    (fun _ => Ok 0).

(** *** Feature collections *)

Inductive Value : Type :=
| VFloat (q : Q)
| VInt (z : Z)
| VStr (s : string).

Definition value_eqb (a b : Value) : bool :=
  match a, b with
  | VFloat p, VFloat q => Qeq_bool p q
  | VInt x, VInt y => x =? y
  | VStr s, VStr t => String.eqb s t
  | _, _ => false
  end.

(** A GeoDataFrame of points, column by column: the row labels, the
    geometry column and the attribute columns in their order. *)
Record GeoDataFrame : Type := mkFrame {
  index : list Z;
  geometry : list Coord;
  columns : list (string * list Value)
}.

(** [len(df)] *)
Definition len (df : GeoDataFrame) : Z := Z.of_nat (List.length (index df)).

(** [df[name] = values]: an existing column is overwritten where it
    stands, a new one is appended. *)
Fixpoint set_item (name : string) (values : list Value)
  (cols : list (string * list Value)) : list (string * list Value) :=
  match cols with
  | [] => [(name, values)]
  | (n, c) :: rest =>
      if String.eqb n name then (name, values) :: rest
      else (n, c) :: set_item name values rest
  end.

Definition set_column (name : string) (values : list Value)
  (df : GeoDataFrame) : GeoDataFrame :=
  mkFrame (index df) (geometry df) (set_item name values (columns df)).

(** [df[name]] as a list of values *)
Fixpoint get_item (name : string) (cols : list (string * list Value))
  : list Value :=
  match cols with
  | [] => []
  | (n, c) :: rest => if String.eqb n name then c else get_item name rest
  end.

(** *** Rounding *)

(** The largest [k >= 0] with [b * 10^k <= a], for [0 < b <= a]. *)
Fixpoint pow10_steps (fuel : nat) (a b : Z) : Z :=
  match fuel with
  | O => 0
  | S f => if b * 10 <=? a then 1 + pow10_steps f a (b * 10) else 0
  end.

(** [int(-np.log10(precision))] in exact arithmetic: [log10] of 0 is
    [-inf] and of a negative number [nan], and [int] raises on both;
    otherwise [int] truncates towards zero.  numpy takes the logarithm
    in doubles. *)
Definition decimals_of (precision : Q) : result Z :=
  let n := Qnum precision in
  let m := Zpos (Qden precision) in
  if n =? 0 then Raise OverflowError
  else if n <? 0 then Raise ValueError
  else if m <=? n then Ok (- pow10_steps (S (Z.to_nat (Z.log2 n))) n m)
  else Ok (pow10_steps (S (Z.to_nat (Z.log2 m))) m n).

(** [np.rint]: the nearest integer, ties to the even one. *)
Definition rint (q : Q) : Z :=
  let f := Qfloor q in
  match Qcompare (q - inject_Z f) (1 # 2) with
  | Lt => f
  | Gt => f + 1
  | Eq => if Z.even f then f else f + 1
  end.

(** [Series.round(decimals=d)] on one value, in exact arithmetic:
    [rint(x * 10^d) / 10^d].  numpy evaluates the product and the
    quotient in doubles. *)
Definition round_decimals (d : Z) (q : Q) : Q :=
  if 0 <=? d
  then Qred (inject_Z (rint (q * inject_Z (10 ^ d))) / inject_Z (10 ^ d))
  else Qred (inject_Z (rint (q / inject_Z (10 ^ (- d)))) * inject_Z (10 ^ (- d))).

(** *** Dropping duplicates *)

Definition key_eqb (a b : list Value) : bool :=
  (List.length a =? List.length b)%nat
  && forallb (fun p => value_eqb (fst p) (snd p)) (combine a b).

(** [df.duplicated(subset)], [keep='first']: a row is a duplicate when
    its key occurred in an earlier row. *)
Fixpoint duplicated_from (seen keys : list (list Value)) : list bool :=
  match keys with
  | [] => []
  | k :: ks => existsb (key_eqb k) seen :: duplicated_from (k :: seen) ks
  end.

Definition duplicated (keys : list (list Value)) : list bool :=
  duplicated_from [] keys.

(** Boolean row selection [l[keep]]. *)
Fixpoint take_rows {A : Type} (keep : list bool) (l : list A) : list A :=
  match keep, l with
  | b :: bs, x :: xs => if b then x :: take_rows bs xs else take_rows bs xs
  | _, _ => []
  end.

(** The key of every row: its values in the columns of [subset]. *)
Definition subset_keys (subset : list string) (df : GeoDataFrame)
  : list (list Value) :=
  map (fun i => map (fun name => nth i (get_item name (columns df)) (VInt 0))
                    subset)
      (seq 0 (List.length (index df))).

(** [df.drop_duplicates(subset=subset)]: a new frame. *)
Definition drop_duplicates (subset : list string) (df : GeoDataFrame)
  : GeoDataFrame :=
  let keep := map negb (duplicated (subset_keys subset df)) in
  mkFrame (take_rows keep (index df))
          (take_rows keep (geometry df))
          (map (fun c => (fst c, take_rows keep (snd c))) (columns df)).

(** [df.drop(columns=names)]: a new frame; the labels dropped here were
    set just before, so the [KeyError] of a missing label cannot arise. *)
Definition drop (names : list string) (df : GeoDataFrame) : GeoDataFrame :=
  mkFrame (index df) (geometry df)
          (filter (fun c => negb (existsb (String.eqb (fst c)) names))
                  (columns df)).

(** What a call of [filter_unique_features] leaves behind: the frame the
    caller passed, as it is after the call; the frame returned; and the
    count printed in ["Filtered ... repetitive features"]. *)
Record Filtered : Type := mkFiltered {
  claims_gdf_after : GeoDataFrame;
  unique_claims : GeoDataFrame;
  reported : Z
}.

(** [filter_unique_features(claims_gdf, precision)] *)
Definition filter_unique_features (claims_gdf : GeoDataFrame) (precision : Q)
  : result Filtered :=
  dx <- decimals_of precision ;;
  let claims_gdf :=
    set_column "rounded_x"
      (map (fun c => VFloat (round_decimals dx (fst c))) (geometry claims_gdf))
      claims_gdf in
  dy <- decimals_of precision ;;
  let claims_gdf :=
    set_column "rounded_y"
      (map (fun c => VFloat (round_decimals dy (snd c))) (geometry claims_gdf))
      claims_gdf in
  let unique_claims := drop_duplicates ["rounded_x"; "rounded_y"]%string claims_gdf in
  let unique_claims := drop ["rounded_x"; "rounded_y"]%string unique_claims in
  Ok (mkFiltered claims_gdf unique_claims (len claims_gdf - len unique_claims)).

(** *** The aggregator *)

Record AccuracyResult : Type := mkResult {
  total_claims : Z;
  covered_claims : Z;
  accuracy : Q;
  flood_categories : list (Z * Z)
}.

(** [d[k] += 1]: [KeyError] when [k] is not a key of [d]. *)
Fixpoint dict_incr (k : Z) (d : list (Z * Z)) : result (list (Z * Z)) :=
  match d with
  | [] => Raise (KeyError k)
  | (k', v) :: rest =>
      if k' =? k then Ok ((k', v + 1) :: rest)
      else rest' <- dict_incr k rest ;; Ok ((k', v) :: rest')
  end.

(** [sum(d.values())] *)
Definition sum_values (d : list (Z * Z)) : Z :=
  fold_right (fun kv acc => snd kv + acc) 0 d.

(** [d[k]] read, 0 for a missing key (only used on present keys). *)
Definition dict_get (k : Z) (d : list (Z * Z)) : Z :=
  match find (fun kv => fst kv =? k) d with
  | Some kv => snd kv
  | None => 0
  end.

(** [claims_gdf.to_crs(flood_src.crs)] *)
Definition frame_to_crs (g : GeoLib) (df : GeoDataFrame) : result GeoDataFrame :=
  geoms <- map_result (to_crs g) (geometry df) ;;
  Ok (mkFrame (index df) geoms (columns df)).

(** [gpd.overlay(claims_crs, flood_bbox, how='intersection')]: the rows
    whose point intersects the footprint, relabelled from 0. *)
Definition overlay (g : GeoLib) (df : GeoDataFrame) : GeoDataFrame :=
  let keep := map (footprint g) (geometry df) in
  let kept := take_rows keep (index df) in
  mkFrame (map Z.of_nat (seq 0 (List.length kept)))
          (take_rows keep (geometry df))
          (map (fun c => (fst c, take_rows keep (snd c))) (columns df)).

(** The body of [for idx, claim in claims_unique.iterrows()], threading
    [(covered_claims, flood_categories)]. *)
Fixpoint check_each_claim (g : GeoLib) (flood_src : Raster)
  (claims : list Coord) (covered_claims : Z) (flood_categories : list (Z * Z))
  : result (Z * list (Z * Z)) :=
  match claims with
  | [] => Ok (covered_claims, flood_categories)
  | claim :: rest =>
      flood_cat <- check_flood_at_point g claim flood_src (2 # 100000) ;;
      flood_categories <- dict_incr flood_cat flood_categories ;;
      let covered_claims :=
        if 0 <? flood_cat then covered_claims + 1 else covered_claims in
      check_each_claim g flood_src rest covered_claims flood_categories
  end.

(** [analyze_flood_accuracy(flood_map_path, claims_gdf)], the raster
    already opened. *)
Definition analyze_flood_accuracy (g : GeoLib) (flood_src : Raster)
  (claims_gdf : GeoDataFrame) : result AccuracyResult :=
  claims_crs <- frame_to_crs g claims_gdf ;;
  let claims_cropped := overlay g claims_crs in
  filtered <- filter_unique_features claims_cropped (1 # 100000) ;;
  let claims_unique := unique_claims filtered in
  let total_claims := len claims_unique in
  let covered_claims := 0 in
  let flood_categories := [(0, 0); (1, 0); (2, 0); (3, 0); (4, 0)] in
  if total_claims =? 0 then
    Ok (mkResult 0 0 0 flood_categories)
  else
    counted <- check_each_claim g flood_src (geometry claims_unique)
                 covered_claims flood_categories ;;
    let '(covered_claims, flood_categories) := counted in
    let accuracy :=
      if 0 <? total_claims
      then (inject_Z covered_claims / inject_Z total_claims)%Q else 0%Q in
    Ok (mkResult total_claims covered_claims accuracy flood_categories).

End Analyzer.

(** ** flood_impact_mapper.py *)

Module Mapper.

Record FloodImpactMapper : Type := mkMapper {
  flood_data : Raster;
  search_distance : Q;
  flood_categories : list (Z * string)
}.

(** The table [__init__] installs. *)
Definition default_flood_categories : list (Z * string) :=
  [ (0, "No Flood"%string);
    (1, "Nuisance Flood (0.1-0.2m)"%string);
    (2, "Minor Flood (0.2-0.5m)"%string);
    (3, "Moderate Flood (0.5-1.0m)"%string);
    (4, "Major Flood (>1.0m)"%string) ].

(** [FloodImpactMapper(flood_map_path, search_distance=...)], the raster
    already decoded. *)
Definition new_mapper (r : Raster) (d : Q) : FloodImpactMapper :=
  mkMapper r d default_flood_categories.

(** [k in d] for a dict [d] *)
Definition dict_mem {V : Type} (k : Z) (d : list (Z * V)) : bool :=
  existsb (fun kv => fst kv =? k) d.

(** [self.get_flood_category_at_point(point)] *)
Definition get_flood_category_at_point (g : GeoLib) (self : FloodImpactMapper)
  (point : Coord) : result Z :=
  point_geom <- to_crs g point ;;
  let buffer := buffer g point_geom (search_distance self) in
  let '(row, col) := rowcol g point_geom in
  let within_buffer :=
    try_except
      (masked_data <- mask g (flood_data self) buffer ;;
       max_value <- np_max masked_data ;;
       if dict_mem max_value (flood_categories self)
       then Ok max_value else Ok 0)
      (fun _ => Ok 0) in
  if in_bounds (flood_data self) row col then
    let point_value := cell (flood_data self) row col in
    if dict_mem point_value (flood_categories self)
    then Ok point_value else within_buffer
  else within_buffer.

(** *** Road segments *)

Inductive Geometry : Type :=
| Point (c : Coord)
| LineString (coords : list Coord)
| MultiLineString (lines : list (list Coord))
| Polygon (ring : list Coord).

(** [line.coords[0]] *)
Definition first_coord (coords : list Coord) : result Coord :=
  match coords with
  | [] => Raise IndexError
  | c :: _ => Ok c
  end.

(** [line.coords[-1]] *)
Definition last_coord (coords : list Coord) : result Coord :=
  match coords with
  | [] => Raise IndexError
  | c :: rest => Ok (last rest c)
  end.

(** [max(l)] of a list: [ValueError] when it is empty. *)
Definition py_max (l : list Z) : result Z :=
  match l with
  | [] => Raise ValueError
  | x :: xs => Ok (fold_left Z.max xs x)
  end.

(** The points [get_max_flood_for_line] samples on a LineString. *)
Definition sample_points (g : GeoLib) (coords : list Coord)
  : result (list Coord) :=
  p0 <- first_coord coords ;;
  let p1 := interpolate g coords (1 # 2) true in
  p2 <- last_coord coords ;;
  Ok [p0; p1; p2].

(** [get_max_flood_for_line(line)], the closure of
    [assign_flood_categories]. *)
Definition get_max_flood_for_line (g : GeoLib) (self : FloodImpactMapper)
  (line : Geometry) : result Z :=
  match line with
  | LineString coords =>
      points <- sample_points g coords ;;
      flood_categories <- map_result (get_flood_category_at_point g self) points ;;
      py_max flood_categories
  | _ => Ok 0
  end.

End Mapper.

(** ** A concrete raster geometry

    The simplest georeferencing: the raster is already in EPSG:4326, so
    reprojection is the identity, and its transform is
    [Affine(1, 0, 0, 0, -1, 0)]: cell [(row, col)] is the unit square
    with corners [(col, -row)] and [(col + 1, -row - 1)].  A buffer is
    the disc of its centre and radius; it covers the cells whose centre
    lies in it. *)

Module Grid.

Definition Disc : Type := (Coord * Q)%type.

(** The integers [lo, lo + 1, ..., hi]. *)
Definition zrange (lo hi : Z) : list Z :=
  map (fun i => lo + Z.of_nat i) (seq 0 (Z.to_nat (hi - lo + 1))).

(** [rasterio.transform.rowcol] for [Affine(1, 0, 0, 0, -1, 0)]. *)
Definition rowcol (c : Coord) : Z * Z :=
  (Qfloor (- snd c), Qfloor (fst c)).

(** The window of the disc's bounding box, clipped to the raster. *)
Definition window_of (r : Raster) (s : Disc) : result (list (Z * Z)) :=
  let '((x, y), d) := s in
  if Qle_bool d 0 then Raise ValueError
  else
    let rows := zrange (Z.max 0 (Qfloor (- (y + d))))
                       (Z.min (height r - 1) (Qfloor (- (y - d)))) in
    let cols := zrange (Z.max 0 (Qfloor (x - d)))
                       (Z.min (width r - 1) (Qfloor (x + d))) in
    match flat_map (fun row => map (fun col => (row, col)) cols) rows with
    | [] => Raise ValueError
    | w => Ok w
    end.

(** The centre of the cell lies in the disc. *)
Definition covers (s : Disc) (rc : Z * Z) : bool :=
  let '((x, y), d) := s in
  let cx := (inject_Z (snd rc) + (1 # 2))%Q in
  let cy := (- (inject_Z (fst rc) + (1 # 2)))%Q in
  Qle_bool ((cx - x) * (cx - x) + (cy - y) * (cy - y)) (d * d).

(** The point at fraction [f] of a straight two-vertex line; the first
    vertex of any other line. *)
Definition interpolate (coords : list Coord) (f : Q) (normalized : bool) : Coord :=
  match coords with
  | [(x0, y0); (x1, y1)] => ((x0 + f * (x1 - x0))%Q, (y0 + f * (y1 - y0))%Q)
  | c :: _ => c
  | [] => (0%Q, 0%Q)
  end.

Definition footprint (r : Raster) (c : Coord) : bool :=
  Qle_bool 0 (fst c) && Qle_bool (fst c) (inject_Z (width r))
  && Qle_bool (- inject_Z (height r)) (snd c) && Qle_bool (snd c) 0.

Definition env (r : Raster) : GeoLib :=
  mkGeoLib Disc (fun c => Ok c) (fun c d => (c, d)) rowcol
           (window_of r) covers interpolate (footprint r).

(** The same raster with a projected coordinate reference: a latitude
    beyond 90 degrees has no finite image, and resolving the point's
    cell raises. *)
Definition projected_env (r : Raster) : GeoLib :=
  mkGeoLib Disc
           (fun c => if Qle_bool (-90) (snd c) && Qle_bool (snd c) 90
                     then Ok c else Raise CRSError)
           (fun c d => (c, d)) rowcol
           (window_of r) covers interpolate (footprint r).

(** The centre of cell [(row, col)]. *)
Definition centre (row col : Z) : Coord :=
  ((inject_Z col + (1 # 2))%Q, (- (inject_Z row + (1 # 2)))%Q).

End Grid.

(** ** Concrete rasters *)

(** One row: a dry cell next to a cell of category 2. *)
Definition dry_next_to_minor : Raster := mkRaster [[0; 2]] (Some 255).

(** One row: a no-data cell (sentinel 255) next to a cell of category 2. *)
Definition gap_next_to_minor : Raster := mkRaster [[255; 2]] (Some 255).

(** The 10 x 10 raster of the scenario: every cell 2, but no-data at
    [(5, 5)]. *)
Definition scenario_raster : Raster :=
  mkRaster
    (map (fun row =>
            map (fun col => if (row =? 5) && (col =? 5) then 255 else 2)
                (Grid.zrange 0 9))
         (Grid.zrange 0 9))
    (Some 255).

(** One row with the categories 0, 3 and 1. *)
Definition dry_moderate_nuisance : Raster := mkRaster [[0; 3; 1]] (Some 255).

(** ** The data model's invariant and the region maximum *)

(** Every cell holds a category code of 0..4 or the declared no-data
    value. *)
Definition valid_cell (r : Raster) (v : Z) : bool :=
  ((0 <=? v) && (v <=? 4)) || is_nodata r v.

Definition valid_raster (r : Raster) : bool :=
  forallb (forallb (valid_cell r)) (band r).

(** The cells of the window that lie inside the shape and are not
    no-data. *)
Definition present_in (g : GeoLib) (r : Raster) (s : Shape g) (rc : Z * Z) : bool :=
  covers g s rc && negb (is_nodata r (cell r (fst rc) (snd rc))).

(** The Raster Index's [maxCategoryInRegion], following the words of the
    specification: the maximum value over the cells of the region that
    are not no-data, and 0 when the region misses the raster or holds
    no such cell. *)
Definition max_category_in_region (g : GeoLib) (r : Raster) (s : Shape g) : Z :=
  match window_of g s with
  | Ok w =>
      fold_right Z.max 0
        (map (fun rc => cell r (fst rc) (snd rc)) (filter (present_in g r s) w))
  | Raise _ => 0
  end.

(** ** Auxiliary definitions of the properties *)

Import Analyzer.

(** What [mask] leaves in a cell. *)
Definition masked_value (g : GeoLib) (r : Raster) (s : Shape g) (rc : Z * Z) : Z :=
  let v := cell r (fst rc) (snd rc) in
  if covers g s rc && negb (is_nodata r v) then v else 0.

(** The names of the two scratch columns. *)
Definition scratch : list string := ["rounded_x"; "rounded_y"]%string.

Definition not_scratch (c : string * list Value) : bool :=
  negb (existsb (String.eqb (fst c)) scratch).

(** Two points round to the same coordinate at [d] decimals. *)
Definition same_rounded (d : Z) (a b : Coord) : bool :=
  Qeq_bool (round_decimals d (fst a)) (round_decimals d (fst b))
  && Qeq_bool (round_decimals d (snd a)) (round_decimals d (snd b)).

(** The frame is rectangular: every column has one value per row. *)
Definition well_formed (df : GeoDataFrame) : bool :=
  (List.length (geometry df) =? List.length (index df))%nat
  && forallb (fun c => (List.length (snd c) =? List.length (index df))%nat)
             (columns df).

(** The frame the caller passed, as the call leaves it. *)
Definition with_rounded (d : Z) (df : GeoDataFrame) : GeoDataFrame :=
  set_column "rounded_y"
    (map (fun c => VFloat (round_decimals d (snd c))) (geometry df))
    (set_column "rounded_x"
       (map (fun c => VFloat (round_decimals d (fst c))) (geometry df)) df).

(** The key [drop_duplicates] compares: the two rounded coordinates. *)
Definition rounded_key (d : Z) (c : Coord) : list Value :=
  [VFloat (round_decimals d (fst c)); VFloat (round_decimals d (snd c))].

(** The rows [drop_duplicates] keeps. *)
Definition kept_rows (d : Z) (df : GeoDataFrame) : list bool :=
  map negb (duplicated (map (rounded_key d) (geometry df))).

(** ** Concrete feature collections *)

(** Three claims; the second lies a ten-millionth of a degree east of
    the first. *)
Definition three_claims : GeoDataFrame :=
  mkFrame [0; 1; 2]
          [ (1 # 10, 2 # 10)%Q; (1000001 # 10000000, 2 # 10)%Q; (3 # 10, 4 # 10)%Q ]
          [ ("claim_id"%string, [VInt 7; VInt 8; VInt 9]) ].

(** One claim at the centre of cell (0, 0). *)
Definition claim_at_origin_cell : GeoDataFrame :=
  mkFrame [0] [Grid.centre 0 0] [].

(** Claims at the centres of the cells (0, 0) and (0, 1). *)
Definition two_cell_claims : GeoDataFrame :=
  mkFrame [0; 1] [Grid.centre 0 0; Grid.centre 0 1] [].

(** One claim far outside the footprint of the concrete rasters. *)
Definition claim_outside : GeoDataFrame :=
  mkFrame [0] [(100 # 1, 100 # 1)%Q] [].

(** ** prepare_flood_map.py *)

Module Prepare.

(** The default of [depth_thresholds]: [[0.1, 0.2, 0.5, 1.0]]. *)
Definition default_thresholds : list Q := [1 # 10; 2 # 10; 5 # 10; 1 # 1].

(** [np.where(data >= threshold, k, classified)] on one cell. *)
Definition where_ge (depth threshold : Q) (k classified : Z) : Z :=
  if Qle_bool threshold depth then k else classified.

(** The four [np.where] passes of [reclassify_flood_map] on one cell,
    starting from the zeros of [np.zeros_like]. *)
Definition classify (depth_thresholds : list Q) (depth : Q) : Z :=
  let classified := 0 in
  let classified := where_ge depth (nth 0 depth_thresholds 0%Q) 1 classified in
  let classified := where_ge depth (nth 1 depth_thresholds 0%Q) 2 classified in
  let classified := where_ge depth (nth 2 depth_thresholds 0%Q) 3 classified in
  let classified := where_ge depth (nth 3 depth_thresholds 0%Q) 4 classified in
  classified.

(** [reclassify_flood_map(input_path, output_path, depth_thresholds)]:
    from the decoded depth band to the categorical raster it writes,
    whose metadata declares [nodata=255]. *)
Definition reclassify_flood_map (data : list (list Q))
  (depth_thresholds : option (list Q)) : result Raster :=
  let depth_thresholds :=
    match depth_thresholds with
    | None => default_thresholds
    | Some l => l
    end in
  if negb (List.length depth_thresholds =? 4)%nat then Raise ValueError
  else Ok (mkRaster (map (map (classify depth_thresholds)) data) (Some 255)).

End Prepare.

(** ** flood_impact_mapper.py: batch assignment and the overlay image *)

Module Impact.

(** The point frame of the infrastructure and the line frame of the
    roads, with their [flood_category] column once it is assigned. *)
Record InfrastructureFrame : Type := mkInfra {
  infra_geometry : list Coord;
  infra_flood_category : option (list Z)
}.

Record RoadFrame : Type := mkRoads {
  road_geometry : list Mapper.Geometry;
  road_flood_category : option (list Z)
}.

(** The two attributes [assign_flood_categories] looks for with
    [hasattr]; [None] when the attribute is not set. *)
Record Layers : Type := mkLayers {
  infrastructure_gdf : option InfrastructureFrame;
  road_gdf : option RoadFrame
}.

(** [df.empty] *)
Definition empty {A : Type} (rows : list A) : bool :=
  match rows with
  | [] => true
  | _ => false
  end.

(** [self.assign_flood_categories()] *)
Definition assign_flood_categories (g : GeoLib) (self : Mapper.FloodImpactMapper)
  (layers : Layers) : result Layers :=
  infrastructure <-
    match infrastructure_gdf layers with
    | Some gdf =>
        if negb (empty (infra_geometry gdf)) then
          flood_category <-
            map_result (Mapper.get_flood_category_at_point g self)
                       (infra_geometry gdf) ;;
          Ok (Some (mkInfra (infra_geometry gdf) (Some flood_category)))
        else Ok (Some gdf)
    | None => Ok None
    end ;;
  roads <-
    match road_gdf layers with
    | Some gdf =>
        if negb (empty (road_geometry gdf)) then
          flood_category <-
            map_result (Mapper.get_max_flood_for_line g self)
                       (road_geometry gdf) ;;
          Ok (Some (mkRoads (road_geometry gdf) (Some flood_category)))
        else Ok (Some gdf)
    | None => Ok None
    end ;;
  Ok (mkLayers infrastructure roads).

(** One pixel: red, green, blue, alpha. *)
Definition RGBA : Type := (Z * Z * Z * Z)%type.

Definition alpha (px : RGBA) : Z := snd px.

(** The table [colors] of [add_flood_overlay]. *)
Definition colors : list RGBA :=
  [ (255, 255, 255, 0);
    (255, 200, 200, 128);
    (255, 128, 128, 160);
    (255, 0, 0, 192);
    (128, 0, 128, 224) ].

(** What the loop [for cat in range(5): rgba[flood_data == cat] =
    colors[cat]] leaves in the pixel of a cell of value [v], starting
    from the zeros of [np.zeros]. *)
Definition overlay_pixel (v : Z) : RGBA :=
  fold_left
    (fun px cat => if v =? cat then nth (Z.to_nat cat) colors (0, 0, 0, 0) else px)
    [0; 1; 2; 3; 4] (0, 0, 0, 0).

(** The [rgba] array of [add_flood_overlay]: one pixel per cell. *)
Definition flood_overlay (flood_data : Raster) : list (list RGBA) :=
  map (map overlay_pixel) (band flood_data).

End Impact.

(** ** Further auxiliary definitions *)

(** Every cell of the raster is at most 4. *)
Definition cells_at_most_4 (r : Raster) : bool :=
  forallb (forallb (fun v => v <=? 4)) (band r).

(** A depth band of two rows, with a no-data depth of -9999. *)
Definition sample_depths : list (list Q) :=
  [ [ 0 # 1; 15 # 100; 3 # 10 ]; [ 7 # 10; 2 # 1; (-9999) # 1 ] ]%Q.

(** A point of latitude 95, which [Grid.projected_env] cannot place. *)
Definition unplaceable : Coord := (1 # 2, 95 # 1)%Q.

(** The histogram every run starts from. *)
Definition empty_histogram : list (Z * Z) :=
  [(0, 0); (1, 0); (2, 0); (3, 0); (4, 0)].

(** [duplicated_from] read on the points themselves: a point is a
    duplicate when it rounds to the coordinate of a point seen before. *)
Fixpoint dup_coords (d : Z) (seen l : list Coord) : list bool :=
  match l with
  | [] => []
  | c :: l' => existsb (same_rounded d c) seen :: dup_coords d (c :: seen) l'
  end.

(** The points [drop_duplicates] keeps, given those seen before. *)
Definition kept_coords (d : Z) (seen l : list Coord) : list Coord :=
  take_rows (map negb (dup_coords d seen l)) l.

(** Two facilities and two road geometries over [dry_moderate_nuisance]. *)
Definition sample_layers : Impact.Layers :=
  Impact.mkLayers
    (Some (Impact.mkInfra [Grid.centre 0 1; Grid.centre 0 2] None))
    (Some (Impact.mkRoads
             [Mapper.LineString [Grid.centre 0 0; Grid.centre 0 2];
              Mapper.Polygon []] None)).

(** A facility that cannot be placed among two that can. *)
Definition layers_with_unplaceable : Impact.Layers :=
  Impact.mkLayers
    (Some (Impact.mkInfra [Grid.centre 0 1; unplaceable; Grid.centre 0 2] None))
    None.

(** ** The deduplicator over numpy's arithmetic

    numpy evaluates [int(-np.log10(precision))] and [Series.round] in
    IEEE doubles; [decimals_of] and [round_decimals] compute the same
    expressions in exact arithmetic, which agrees with the doubles away
    from the boundaries only.  Here the two are functions the
    deduplicator is parameterised by, as the resolvers are by the
    geographic libraries. *)
Record Numpy : Type := mkNumpy {
  (** [int(-np.log10(precision))]: the number of decimals, or the
      exception [int] raises. *)
  np_decimals : Q -> result Z;
  (** [Series.round(decimals=d)] on one value. *)
  np_round : Z -> Q -> Q
}.

(** The two in exact arithmetic. *)
Definition exact_numpy : Numpy := mkNumpy decimals_of round_decimals.

(** [filter_unique_features(claims_gdf, precision)] over any [Numpy];
    at [exact_numpy] it is [Analyzer.filter_unique_features]. *)
Definition filter_unique_features_np (np : Numpy) (claims_gdf : GeoDataFrame)
  (precision : Q) : result Filtered :=
  dx <- np_decimals np precision ;;
  let claims_gdf :=
    set_column "rounded_x"
      (map (fun c => VFloat (np_round np dx (fst c))) (geometry claims_gdf))
      claims_gdf in
  dy <- np_decimals np precision ;;
  let claims_gdf :=
    set_column "rounded_y"
      (map (fun c => VFloat (np_round np dy (snd c))) (geometry claims_gdf))
      claims_gdf in
  let unique_claims := drop_duplicates ["rounded_x"; "rounded_y"]%string claims_gdf in
  let unique_claims := drop ["rounded_x"; "rounded_y"]%string unique_claims in
  Ok (mkFiltered claims_gdf unique_claims (len claims_gdf - len unique_claims)).

(** Two points round to the same coordinate at [d] decimals. *)
Definition same_rounded_np (np : Numpy) (d : Z) (a b : Coord) : bool :=
  Qeq_bool (np_round np d (fst a)) (np_round np d (fst b))
  && Qeq_bool (np_round np d (snd a)) (np_round np d (snd b)).

(** The frame the caller passed, as the call leaves it. *)
Definition with_rounded_np (np : Numpy) (d : Z) (df : GeoDataFrame) : GeoDataFrame :=
  set_column "rounded_y"
    (map (fun c => VFloat (np_round np d (snd c))) (geometry df))
    (set_column "rounded_x"
       (map (fun c => VFloat (np_round np d (fst c))) (geometry df)) df).

(** The key [drop_duplicates] compares: the two rounded coordinates. *)
Definition rounded_key_np (np : Numpy) (d : Z) (c : Coord) : list Value :=
  [VFloat (np_round np d (fst c)); VFloat (np_round np d (snd c))].

(** The rows [drop_duplicates] keeps. *)
Definition kept_rows_np (np : Numpy) (d : Z) (df : GeoDataFrame) : list bool :=
  map negb (duplicated (map (rounded_key_np np d) (geometry df))).

(** Three claims with coordinates that doubles hold exactly; the second
    lies 1/128 east of the first. *)
Definition dyadic_claims : GeoDataFrame :=
  mkFrame [0; 1; 2]
          [ (1 # 8, 1 # 2)%Q; (17 # 128, 1 # 2)%Q; (13 # 16, 3 # 8)%Q ]
          [ ("claim_id"%string, [VInt 7; VInt 8; VInt 9]) ].

(** One claim whose frame has a column named [rounded_x] of its own. *)
Definition claim_with_rounded_x : GeoDataFrame :=
  mkFrame [0] [ (1 # 8, 1 # 2)%Q ]
          [ ("rounded_x"%string, [VStr "survey value"]) ].

(** * Properties *)

(** ** Maxima *)

Lemma fold_right_max_nonneg (l : list Z) : 0 <= fold_right Z.max 0 l.
Proof. induction l as [|x l IH]; simpl; lia. Qed.

Lemma fold_left_max_clip (l : list Z) (x : Z) :
  Z.max 0 (fold_left Z.max l x) = Z.max (Z.max 0 x) (fold_right Z.max 0 l).
Proof.
  revert x; induction l as [|y l IH]; intros x; simpl.
  - lia.
  - rewrite IH. pose proof (fold_right_max_nonneg l). lia.
Qed.

Lemma fold_right_max_upper (l : list Z) (b : Z) :
  0 <= b -> Forall (fun v => v <= b) l -> fold_right Z.max 0 l <= b.
Proof.
  intros Hb H; induction H as [|x l Hx _ IH]; simpl; lia.
Qed.

Lemma masked_fold (g : GeoLib) (r : Raster) (s : Shape g) (w : list (Z * Z)) :
  fold_right Z.max 0 (map (masked_value g r s) w)
  = fold_right Z.max 0
      (map (fun rc => cell r (fst rc) (snd rc)) (filter (present_in g r s) w)).
Proof.
  induction w as [|rc w IH]; simpl; [reflexivity|].
  unfold masked_value at 1, present_in at 1.
  destruct (covers g s rc && negb (is_nodata r (cell r (fst rc) (snd rc)))); simpl.
  - now rewrite IH.
  - rewrite IH.
    pose proof (fold_right_max_nonneg
      (map (fun rc => cell r (fst rc) (snd rc)) (filter (present_in g r s) w))).
    lia.
Qed.

(** The maximum [np.max] finds in the masked window, clipped at 0, is
    the region maximum. *)
Lemma np_max_mask (g : GeoLib) (r : Raster) (s : Shape g) (w : list (Z * Z)) (m : Z) :
  window_of g s = Ok w ->
  np_max (map (masked_value g r s) w) = Ok m ->
  Z.max 0 m = max_category_in_region g r s.
Proof.
  intros Hw Hm. unfold max_category_in_region. rewrite Hw, <- masked_fold.
  destruct w as [|rc w]; simpl in Hm; [discriminate|].
  injection Hm as <-. rewrite fold_left_max_clip. simpl.
  pose proof (fold_right_max_nonneg (map (masked_value g r s) w)). lia.
Qed.

Lemma np_max_empty_region (g : GeoLib) (r : Raster) (s : Shape g) (w : list (Z * Z)) (e : exn) :
  window_of g s = Ok w ->
  np_max (map (masked_value g r s) w) = Raise e ->
  max_category_in_region g r s = 0.
Proof.
  intros Hw Hm. unfold max_category_in_region. rewrite Hw.
  destruct w; [reflexivity | discriminate].
Qed.

Lemma mask_unfold (g : GeoLib) (r : Raster) (s : Shape g) :
  mask g r s = (w <- window_of g s ;; Ok (map (masked_value g r s) w)).
Proof. reflexivity. Qed.

(** ** The invariant on cells *)

Lemma cell_valid (r : Raster) (row col : Z) :
  valid_raster r = true -> valid_cell r (cell r row col) = true.
Proof.
  intros H. unfold cell, valid_raster in *.
  rewrite forallb_forall in H.
  destruct (nth_in_or_default (Z.to_nat row) (band r) []) as [Hin | Hd].
  - specialize (H _ Hin). rewrite forallb_forall in H.
    destruct (nth_in_or_default (Z.to_nat col) (nth (Z.to_nat row) (band r) []) 0)
      as [Hin' | Hd'].
    + now apply H.
    + rewrite Hd'. reflexivity.
  - rewrite Hd. destruct (Z.to_nat col); reflexivity.
Qed.

Lemma region_max_range (g : GeoLib) (r : Raster) (s : Shape g) :
  valid_raster r = true -> 0 <= max_category_in_region g r s <= 4.
Proof.
  intros Hv. unfold max_category_in_region.
  destruct (window_of g s) as [w|e]; [|lia].
  split; [apply fold_right_max_nonneg|].
  apply fold_right_max_upper; [lia|].
  rewrite Forall_map, Forall_forall. intros rc Hin.
  apply filter_In in Hin as [_ Hp]. unfold present_in in Hp.
  apply andb_true_iff in Hp as [_ Hn].
  pose proof (cell_valid r (fst rc) (snd rc) Hv) as Hc.
  unfold valid_cell in Hc. apply negb_true_iff in Hn. rewrite Hn in Hc.
  rewrite orb_false_r in Hc. lia.
Qed.

Lemma dict_mem_default (v : Z) :
  Mapper.dict_mem v Mapper.default_flood_categories
  = (0 <=? v) && (v <=? 4).
Proof.
  unfold Mapper.dict_mem, Mapper.default_flood_categories; cbn [existsb fst].
  destruct (Z.eqb_spec 0 v), (Z.eqb_spec 1 v), (Z.eqb_spec 2 v),
    (Z.eqb_spec 3 v), (Z.eqb_spec 4 v), (Z.leb_spec 0 v), (Z.leb_spec v 4);
    cbn [orb andb]; try reflexivity; exfalso; lia.
Qed.

(** ** The buffer path of the two resolvers *)

Lemma analyzer_buffer_path (g : GeoLib) (r : Raster) (s : Shape g) :
  try_except
    (masked_data <- mask g r s ;;
     max_value <- np_max masked_data ;;
     if 0 <? max_value then Ok max_value else Ok 0)
    (fun _ => Ok 0)
  = Ok (max_category_in_region g r s).
Proof.
  rewrite mask_unfold.
  destruct (window_of g s) as [w|e] eqn:Hw; cbn [bind try_except].
  - destruct (np_max (map (masked_value g r s) w)) as [m|e] eqn:Hm; cbn [bind try_except].
    + pose proof (np_max_mask g r s w m Hw Hm) as H.
      destruct (Z.ltb_spec 0 m); simpl; f_equal; lia.
    + now rewrite (np_max_empty_region g r s w e Hw Hm).
  - unfold max_category_in_region. now rewrite Hw.
Qed.

Lemma mapper_buffer_path (g : GeoLib) (r : Raster) (s : Shape g) :
  try_except
    (masked_data <- mask g r s ;;
     max_value <- np_max masked_data ;;
     if Mapper.dict_mem max_value Mapper.default_flood_categories
     then Ok max_value else Ok 0)
    (fun _ => Ok 0)
  = Ok (if max_category_in_region g r s <=? 4
        then max_category_in_region g r s else 0).
Proof.
  rewrite mask_unfold.
  destruct (window_of g s) as [w|e] eqn:Hw; cbn [bind try_except].
  - destruct (np_max (map (masked_value g r s) w)) as [m|e] eqn:Hm; cbn [bind try_except].
    + pose proof (np_max_mask g r s w m Hw Hm) as H.
      rewrite dict_mem_default.
      destruct (Z.leb_spec 0 m), (Z.leb_spec m 4),
        (Z.leb_spec (max_category_in_region g r s) 4);
        simpl; f_equal; lia.
    + now rewrite (np_max_empty_region g r s w e Hw Hm).
  - unfold max_category_in_region. now rewrite Hw.
Qed.

(** The analyzer falls back to the buffer off the raster and on every
    cell that is not positive. *)
Lemma check_flood_at_point_fallback (g : GeoLib) (r : Raster) (d : Q)
  (p q : Coord) (row col : Z) :
  to_crs g p = Ok q -> rowcol g q = (row, col) ->
  in_bounds r row col = false \/ cell r row col <= 0 ->
  Analyzer.check_flood_at_point g p r d
  = Ok (max_category_in_region g r (buffer g q d)).
Proof.
  intros Hq Hrc Hcase. unfold Analyzer.check_flood_at_point.
  rewrite Hq; cbn [bind]. rewrite Hrc.
  destruct (in_bounds r row col) eqn:Hb.
  - destruct Hcase as [Hf | Hle]; [discriminate|].
    destruct (Z.ltb_spec 0 (cell r row col)); [lia|].
    apply analyzer_buffer_path.
  - apply analyzer_buffer_path.
Qed.

(** The mapper falls back to the buffer off the raster and on every cell
    whose value is not a key of its category table. *)
Lemma get_flood_category_at_point_fallback (g : GeoLib) (r : Raster) (d : Q)
  (p q : Coord) (row col : Z) :
  to_crs g p = Ok q -> rowcol g q = (row, col) ->
  in_bounds r row col = false \/ ~ (0 <= cell r row col <= 4) ->
  Mapper.get_flood_category_at_point g (Mapper.new_mapper r d) p
  = Ok (if max_category_in_region g r (buffer g q d) <=? 4
        then max_category_in_region g r (buffer g q d) else 0).
Proof.
  intros Hq Hrc Hcase. unfold Mapper.get_flood_category_at_point.
  rewrite Hq; cbn [bind Mapper.new_mapper Mapper.flood_data
                   Mapper.search_distance Mapper.flood_categories].
  rewrite Hrc.
  destruct (in_bounds r row col) eqn:Hb.
  - destruct Hcase as [Hf | Hout]; [discriminate|].
    rewrite dict_mem_default.
    destruct (Z.leb_spec 0 (cell r row col)), (Z.leb_spec (cell r row col) 4);
      cbn [andb]; try (exfalso; lia); apply mapper_buffer_path.
  - apply mapper_buffer_path.
Qed.

(** The exact path of the mapper: a cell whose value is a key of the
    category table is returned at once. *)
Lemma get_flood_category_at_point_exact (g : GeoLib) (r : Raster) (d : Q)
  (p q : Coord) (row col : Z) :
  to_crs g p = Ok q -> rowcol g q = (row, col) ->
  in_bounds r row col = true -> 0 <= cell r row col <= 4 ->
  Mapper.get_flood_category_at_point g (Mapper.new_mapper r d) p
  = Ok (cell r row col).
Proof.
  intros Hq Hrc Hb Hv. unfold Mapper.get_flood_category_at_point.
  rewrite Hq; cbn [bind Mapper.new_mapper Mapper.flood_data
                   Mapper.search_distance Mapper.flood_categories].
  rewrite Hrc, Hb, dict_mem_default.
  destruct (Z.leb_spec 0 (cell r row col)), (Z.leb_spec (cell r row col) 4);
    cbn [andb]; try (exfalso; lia); reflexivity.
Qed.

(** The exact path of the analyzer: a positive cell is returned at once. *)
Lemma check_flood_at_point_exact (g : GeoLib) (r : Raster) (d : Q)
  (p q : Coord) (row col : Z) :
  to_crs g p = Ok q -> rowcol g q = (row, col) ->
  in_bounds r row col = true -> 0 < cell r row col ->
  Analyzer.check_flood_at_point g p r d = Ok (cell r row col).
Proof.
  intros Hq Hrc Hb Hv. unfold Analyzer.check_flood_at_point.
  rewrite Hq; cbn [bind]. rewrite Hrc, Hb.
  destruct (Z.ltb_spec 0 (cell r row col)); [reflexivity | lia].
Qed.

(** The analyzer never raises: its whole body is inside [try]. *)
Lemma check_flood_at_point_total (g : GeoLib) (r : Raster) (d : Q) (p : Coord) :
  exists c, Analyzer.check_flood_at_point g p r d = Ok c.
Proof.
  unfold Analyzer.check_flood_at_point, try_except.
  match goal with |- exists c, match ?b with _ => _ end = _ => destruct b end;
    eauto.
Qed.

(** A fault of the reprojection makes the analyzer answer 0. *)
Lemma check_flood_at_point_fault (g : GeoLib) (r : Raster) (d : Q) (p : Coord) (e : exn) :
  to_crs g p = Raise e -> Analyzer.check_flood_at_point g p r d = Ok 0.
Proof.
  intros H. unfold Analyzer.check_flood_at_point. now rewrite H.
Qed.

(** A fault of the reprojection leaves the mapper's resolver: it stands
    before the [try]. *)
Lemma get_flood_category_at_point_fault (g : GeoLib) (m : Mapper.FloodImpactMapper)
  (p : Coord) (e : exn) :
  to_crs g p = Raise e -> Mapper.get_flood_category_at_point g m p = Raise e.
Proof.
  intros H. unfold Mapper.get_flood_category_at_point. now rewrite H.
Qed.

(** Whatever the mapper's resolver returns is a category of 0..4. *)
Lemma get_flood_category_at_point_range (g : GeoLib) (r : Raster) (d : Q)
  (p : Coord) (c : Z) :
  Mapper.get_flood_category_at_point g (Mapper.new_mapper r d) p = Ok c ->
  0 <= c <= 4.
Proof.
  unfold Mapper.get_flood_category_at_point.
  destruct (to_crs g p) as [q|e]; cbn [bind Mapper.new_mapper Mapper.flood_data
    Mapper.search_distance Mapper.flood_categories]; [|discriminate].
  destruct (rowcol g q) as [row col].
  assert (Hbuf : forall c,
    Ok (if max_category_in_region g r (buffer g q d) <=? 4
        then max_category_in_region g r (buffer g q d) else 0) = Ok c ->
    0 <= c <= 4).
  { intros c' H. injection H as <-.
    pose proof (fold_right_max_nonneg) as Hn.
    assert (0 <= max_category_in_region g r (buffer g q d)).
    { unfold max_category_in_region. destruct (window_of g _); [apply Hn | lia]. }
    destruct (Z.leb_spec (max_category_in_region g r (buffer g q d)) 4); lia. }
  rewrite mapper_buffer_path.
  destruct (in_bounds r row col); [|apply Hbuf].
  rewrite dict_mem_default.
  destruct (Z.leb_spec 0 (cell r row col)), (Z.leb_spec (cell r row col) 4);
    cbn [andb]; try apply Hbuf.
  intros Hc; injection Hc as <-; lia.
Qed.

(** On a raster of category codes and no-data cells the mapper's buffer
    path returns the region maximum. *)
Lemma get_flood_category_at_point_region (g : GeoLib) (r : Raster) (d : Q)
  (p q : Coord) (row col : Z) :
  valid_raster r = true ->
  to_crs g p = Ok q -> rowcol g q = (row, col) ->
  in_bounds r row col = false \/ ~ (0 <= cell r row col <= 4) ->
  Mapper.get_flood_category_at_point g (Mapper.new_mapper r d) p
  = Ok (max_category_in_region g r (buffer g q d)).
Proof.
  intros Hv Hq Hrc Hcase.
  rewrite (get_flood_category_at_point_fallback g r d p q row col Hq Hrc Hcase).
  pose proof (region_max_range g r (buffer g q d) Hv) as Hreg.
  destruct (Z.leb_spec (max_category_in_region g r (buffer g q d)) 4);
    [reflexivity | lia].
Qed.

(** ** Point resolution *)

(** C4: a point whose reprojected cell is within the grid, is not
    no-data and holds a value greater than 0 resolves to exactly that
    value in both resolvers, whatever the search radius: two radii give
    the same answer, the cell's value. *)
Theorem exact_hit_independent_of_radius (g : GeoLib) (r : Raster)
  (p q : Coord) (row col : Z) (d1 d2 : Q) :
  valid_raster r = true ->
  to_crs g p = Ok q -> rowcol g q = (row, col) ->
  in_bounds r row col = true ->
  is_nodata r (cell r row col) = false ->
  0 < cell r row col ->
  Analyzer.check_flood_at_point g p r d1 = Ok (cell r row col)
  /\ Mapper.get_flood_category_at_point g (Mapper.new_mapper r d1) p
     = Ok (cell r row col)
  /\ Analyzer.check_flood_at_point g p r d2
     = Analyzer.check_flood_at_point g p r d1
  /\ Mapper.get_flood_category_at_point g (Mapper.new_mapper r d2) p
     = Mapper.get_flood_category_at_point g (Mapper.new_mapper r d1) p.
Proof.
  intros Hv Hq Hrc Hb Hn Hpos.
  assert (Hr : 0 <= cell r row col <= 4).
  { pose proof (cell_valid r row col Hv) as Hc. unfold valid_cell in Hc.
    rewrite Hn, orb_false_r in Hc. lia. }
  rewrite !(check_flood_at_point_exact g r _ p q row col Hq Hrc Hb Hpos).
  rewrite !(get_flood_category_at_point_exact g r _ p q row col Hq Hrc Hb Hr).
  repeat split.
Qed.

Lemma exact_hit_independent_of_radius_witness :
  valid_raster scenario_raster = true
  /\ Analyzer.check_flood_at_point (Grid.env scenario_raster)
       (Grid.centre 0 0) scenario_raster (1 # 4) = Ok 2
  /\ Mapper.get_flood_category_at_point (Grid.env scenario_raster)
       (Mapper.new_mapper scenario_raster (3 # 1)) (Grid.centre 0 0) = Ok 2.
Proof.
  split; [reflexivity|].
  destruct (exact_hit_independent_of_radius (Grid.env scenario_raster)
              scenario_raster (Grid.centre 0 0) (Grid.centre 0 0) 0 0
              (1 # 4) (3 # 1)) as (Ha & _ & _ & Hm).
  - reflexivity.
  - reflexivity.
  - reflexivity.
  - reflexivity.
  - reflexivity.
  - vm_compute; reflexivity.
  - split; [exact Ha|]. rewrite Hm. reflexivity.
Defined.

(** C1, as the code has it: for a point whose reprojection succeeds, on
    a raster of category codes and no-data cells, (1) off the raster
    both resolvers return the region maximum of the buffer; (2) on an
    explicit no-flood cell the analyzer returns the region maximum,
    while the mapper returns 0 at once; (3) on a no-data cell whose
    sentinel is outside 0..4 the mapper returns the region maximum, and
    so does the analyzer when the sentinel is not positive. *)
Theorem buffer_fallback (g : GeoLib) (r : Raster) (d : Q)
  (p q : Coord) (row col : Z) :
  valid_raster r = true ->
  to_crs g p = Ok q -> rowcol g q = (row, col) ->
  let region := max_category_in_region g r (buffer g q d) in
  let analyzer := Analyzer.check_flood_at_point g p r d in
  let mapper := Mapper.get_flood_category_at_point g (Mapper.new_mapper r d) p in
  (in_bounds r row col = false -> analyzer = Ok region /\ mapper = Ok region)
  /\ (in_bounds r row col = true -> cell r row col = 0 ->
      analyzer = Ok region /\ mapper = Ok 0)
  /\ (in_bounds r row col = true -> nodata r = Some (cell r row col) ->
      ~ (0 <= cell r row col <= 4) ->
      mapper = Ok region /\ (cell r row col <= 0 -> analyzer = Ok region)).
Proof.
  intros Hv Hq Hrc region analyzer mapper.
  split; [|split].
  - intros Hb. split.
    + apply (check_flood_at_point_fallback g r d p q row col); auto.
    + apply (get_flood_category_at_point_region g r d p q row col); auto.
  - intros Hb H0. split.
    + apply (check_flood_at_point_fallback g r d p q row col); auto.
      right; lia.
    + unfold mapper.
      rewrite (get_flood_category_at_point_exact g r d p q row col); auto.
      * now rewrite H0.
      * lia.
  - intros Hb Hs Hout. split.
    + apply (get_flood_category_at_point_region g r d p q row col); auto.
    + intros Hle.
      apply (check_flood_at_point_fallback g r d p q row col); auto.
Qed.

(** The scenario of the specification: on the 10 x 10 raster of
    category 2 with a no-data cell at (5, 5), the mapper resolves the
    centre of that cell to 2 when the buffer reaches its neighbours. *)
Lemma buffer_fallback_witness :
  valid_raster scenario_raster = true
  /\ Mapper.get_flood_category_at_point (Grid.env scenario_raster)
       (Mapper.new_mapper scenario_raster (3 # 2)) (Grid.centre 5 5) = Ok 2.
Proof.
  split; [reflexivity|].
  destruct (buffer_fallback (Grid.env scenario_raster) scenario_raster (3 # 2)
              (Grid.centre 5 5) (Grid.centre 5 5) 5 5)
    as (_ & _ & Hgap).
  - reflexivity.
  - reflexivity.
  - reflexivity.
  - destruct Hgap as [Hm _].
    + reflexivity.
    + reflexivity.
    + vm_compute. intros [_ H]. apply H. reflexivity.
    + rewrite Hm. vm_compute. reflexivity.
Defined.

(** C1 as stated fails: the point at the centre of the dry cell of
    [dry_next_to_minor] falls on an explicit no-flood cell and its
    buffer of radius 3/2 reaches the cell of category 2, but the mapper
    does not return the region maximum. *)
Lemma buffer_fallback_counterexample :
  ~ (cell dry_next_to_minor 0 0 = 0 ->
     Mapper.get_flood_category_at_point (Grid.env dry_next_to_minor)
       (Mapper.new_mapper dry_next_to_minor (3 # 2)) (Grid.centre 0 0)
     = Ok (max_category_in_region (Grid.env dry_next_to_minor) dry_next_to_minor
             (buffer (Grid.env dry_next_to_minor) (Grid.centre 0 0) (3 # 2)))).
Proof.
  intros H. specialize (H eq_refl). vm_compute in H. discriminate H.
Qed.

(** C2 at a failing input: a point of latitude 95 cannot be reprojected;
    the mapper's resolver lets the exception out, where the analyzer's
    answers 0. *)
Theorem mapper_resolver_raises :
  Mapper.get_flood_category_at_point (Grid.projected_env scenario_raster)
    (Mapper.new_mapper scenario_raster (3 # 2)) (1 # 2, 95 # 1)%Q
  = Raise CRSError
  /\ Analyzer.check_flood_at_point (Grid.projected_env scenario_raster)
       (1 # 2, 95 # 1)%Q scenario_raster (3 # 2)
     = Ok 0.
Proof. split; reflexivity. Qed.

(** C3 at a failing input: on a no-data cell whose sentinel is 255 the
    analyzer's resolver returns the sentinel as the category. *)
Theorem analyzer_resolver_returns_sentinel :
  nodata gap_next_to_minor = Some (cell gap_next_to_minor 0 0)
  /\ Analyzer.check_flood_at_point (Grid.env gap_next_to_minor)
       (Grid.centre 0 0) gap_next_to_minor (3 # 2)
     = Ok 255.
Proof. split; reflexivity. Qed.

(** C10, as the code has it: for a point whose reprojection succeeds, on
    a raster of category codes and no-data cells, the two resolvers
    return the same category when the point is off the raster or its
    cell holds a value other than 0 that is at most 4; on an explicit
    no-flood cell the analyzer returns the region maximum of the buffer
    and the mapper 0. *)
Theorem resolvers_agree (g : GeoLib) (r : Raster) (d : Q)
  (p q : Coord) (row col : Z) :
  valid_raster r = true ->
  to_crs g p = Ok q -> rowcol g q = (row, col) ->
  (in_bounds r row col = false
   \/ (cell r row col <> 0 /\ cell r row col <= 4) ->
   Analyzer.check_flood_at_point g p r d
   = Mapper.get_flood_category_at_point g (Mapper.new_mapper r d) p)
  /\ (in_bounds r row col = true -> cell r row col = 0 ->
      Analyzer.check_flood_at_point g p r d
      = Ok (max_category_in_region g r (buffer g q d))
      /\ Mapper.get_flood_category_at_point g (Mapper.new_mapper r d) p = Ok 0).
Proof.
  intros Hv Hq Hrc.
  split.
  - intros [Hb | [Hnz Hle]].
    + rewrite (check_flood_at_point_fallback g r d p q row col); auto.
      rewrite (get_flood_category_at_point_region g r d p q row col); auto.
    + destruct (in_bounds r row col) eqn:Hb.
      * destruct (Z.ltb_spec 0 (cell r row col)) as [Hpos | Hnp].
        -- rewrite (check_flood_at_point_exact g r d p q row col); auto.
           rewrite (get_flood_category_at_point_exact g r d p q row col); auto.
           lia.
        -- rewrite (check_flood_at_point_fallback g r d p q row col); auto.
           rewrite (get_flood_category_at_point_region g r d p q row col); auto.
           right; lia.
      * rewrite (check_flood_at_point_fallback g r d p q row col); auto.
        rewrite (get_flood_category_at_point_region g r d p q row col); auto.
  - intros Hb H0. split.
    + apply (check_flood_at_point_fallback g r d p q row col); auto.
      right; lia.
    + rewrite (get_flood_category_at_point_exact g r d p q row col); auto.
      * now rewrite H0.
      * lia.
Qed.

Lemma resolvers_agree_witness :
  valid_raster scenario_raster = true
  /\ Analyzer.check_flood_at_point (Grid.env scenario_raster)
       (Grid.centre 0 0) scenario_raster (3 # 2)
     = Mapper.get_flood_category_at_point (Grid.env scenario_raster)
         (Mapper.new_mapper scenario_raster (3 # 2)) (Grid.centre 0 0).
Proof.
  split; [reflexivity|].
  destruct (resolvers_agree (Grid.env scenario_raster) scenario_raster (3 # 2)
              (Grid.centre 0 0) (Grid.centre 0 0) 0 0) as [Hagree _].
  - reflexivity.
  - reflexivity.
  - reflexivity.
  - apply Hagree. right. vm_compute. split; discriminate.
Defined.

(** C10 as stated fails: at the centre of the dry cell of
    [dry_next_to_minor], with the shared radius 3/2, the analyzer answers
    2 and the mapper 0. *)
Lemma resolvers_agree_counterexample :
  Analyzer.check_flood_at_point (Grid.env dry_next_to_minor)
    (Grid.centre 0 0) dry_next_to_minor (3 # 2)
  <> Mapper.get_flood_category_at_point (Grid.env dry_next_to_minor)
       (Mapper.new_mapper dry_next_to_minor (3 # 2)) (Grid.centre 0 0).
Proof. vm_compute. discriminate. Qed.

(** ** Line resolution *)




(** ** Deduplication *)

Lemma get_set_item_same (name : string) (v : list Value) (cols : list (string * list Value)) :
  get_item name (set_item name v cols) = v.
Proof.
  induction cols as [|[n c] cols IH]; simpl.
  - now rewrite String.eqb_refl.
  - destruct (String.eqb n name) eqn:E; simpl.
    + now rewrite String.eqb_refl.
    + now rewrite E.
Qed.

Lemma get_set_item_other (name other : string) (v : list Value)
  (cols : list (string * list Value)) :
  String.eqb name other = false ->
  get_item other (set_item name v cols) = get_item other cols.
Proof.
  intros Hne. induction cols as [|[n c] cols IH]; simpl.
  - now rewrite Hne.
  - destruct (String.eqb n name) eqn:E; simpl.
    + apply String.eqb_eq in E; subst n. now rewrite Hne.
    + destruct (String.eqb n other); [reflexivity | exact IH].
Qed.

Lemma filter_set_item_scratch (name : string) (v : list Value)
  (cols : list (string * list Value)) :
  existsb (String.eqb name) scratch = true ->
  filter not_scratch (set_item name v cols) = filter not_scratch cols.
Proof.
  intros Hs.
  assert (Hn : forall c, not_scratch (name, c) = false).
  { intros c. unfold not_scratch; cbn [fst]. now rewrite Hs. }
  induction cols as [|[n c] cols IH]; cbn [set_item filter].
  - now rewrite Hn.
  - destruct (String.eqb n name) eqn:E.
    + apply String.eqb_eq in E; subst n.
      cbn [filter]. now rewrite !Hn.
    + cbn [filter]. now rewrite IH.
Qed.

Lemma filter_not_scratch_id (cols : list (string * list Value)) :
  forallb not_scratch cols = true -> filter not_scratch cols = cols.
Proof.
  induction cols as [|c cols IH]; simpl; [reflexivity|].
  intros H; apply andb_true_iff in H as [Hc Hr].
  now rewrite Hc, IH.
Qed.

Lemma duplicated_from_length (keys seen : list (list Value)) :
  List.length (duplicated_from seen keys) = List.length keys.
Proof.
  revert seen; induction keys as [|k ks IH]; intros seen; simpl; auto.
Qed.

(** A row is marked a duplicate exactly when its key was seen before the
    scan or occurs in an earlier row. *)
Lemma duplicated_from_spec (keys seen : list (list Value)) (i : nat) :
  (i < List.length keys)%nat ->
  nth i (duplicated_from seen keys) false = true <->
  existsb (key_eqb (nth i keys [])) seen = true
  \/ exists j, (j < i)%nat /\ key_eqb (nth i keys []) (nth j keys []) = true.
Proof.
  revert seen i; induction keys as [|k ks IH]; intros seen i Hi; simpl in Hi.
  - lia.
  - destruct i as [|i]; cbn [duplicated_from nth].
    + split; [auto|]. intros [H | (j & Hj & _)]; [exact H | lia].
    + rewrite IH by lia. cbn [existsb]. split.
      * intros [H | (j & Hj & He)].
        -- apply orb_true_iff in H as [H | H].
           ++ right. exists 0%nat. split; [lia | exact H].
           ++ now left.
        -- right. exists (S j). split; [lia | exact He].
      * intros [H | (j & Hj & He)].
        -- left. apply orb_true_iff. now right.
        -- destruct j as [|j].
           ++ left. apply orb_true_iff. now left.
           ++ right. exists j. split; [lia | exact He].
Qed.

Lemma take_rows_all (A : Type) (keep : list bool) (l : list A) :
  (List.length l <= List.length keep)%nat ->
  (forall i, (i < List.length keep)%nat -> nth i keep false = true) ->
  take_rows keep l = l.
Proof.
  revert l; induction keep as [|b bs IH]; intros l Hlen Hall.
  - destruct l; [reflexivity | simpl in Hlen; lia].
  - destruct l as [|x xs]; [reflexivity|].
    assert (H0 : nth 0 (b :: bs) false = true) by (apply Hall; simpl; lia).
    simpl in H0. subst b.
    simpl. f_equal. apply IH.
    + simpl in Hlen; lia.
    + intros i Hi. apply (Hall (S i)). simpl; lia.
Qed.

Lemma take_rows_none (A : Type) (keep : list bool) (l : list A) :
  (forall i, (i < List.length keep)%nat -> nth i keep false = false) ->
  take_rows keep l = [].
Proof.
  revert l; induction keep as [|b bs IH]; intros l Hall; [reflexivity|].
  destruct l as [|x xs]; [reflexivity|].
  assert (H0 : nth 0 (b :: bs) false = false) by (apply Hall; simpl; lia).
  simpl in H0. subst b.
  simpl. apply IH. intros i Hi. apply (Hall (S i)). simpl; lia.
Qed.

Lemma take_rows_length (A B : Type) (keep : list bool) (l : list A) (l' : list B) :
  List.length l = List.length l' ->
  List.length (take_rows keep l) = List.length (take_rows keep l').
Proof.
  revert l l'; induction keep as [|b bs IH]; intros l l' H; [reflexivity|].
  destruct l, l'; simpl in *; try lia; auto.
  destruct b; simpl; auto.
Qed.

Lemma decimals_of_positive (precision : Q) :
  (0 < precision)%Q -> exists d, decimals_of precision = Ok d.
Proof.
  intros H. unfold Qlt in H. simpl in H. unfold decimals_of.
  destruct (Z.eqb_spec (Qnum precision) 0); [lia|].
  destruct (Z.ltb_spec (Qnum precision) 0); [lia|].
  destruct (Z.pos (Qden precision) <=? Qnum precision); eauto.
Qed.

Lemma filter_unique_features_unfold (df : GeoDataFrame) (precision : Q) (d : Z) :
  decimals_of precision = Ok d ->
  filter_unique_features df precision
  = Ok (mkFiltered (with_rounded d df)
          (drop scratch (drop_duplicates scratch (with_rounded d df)))
          (len (with_rounded d df)
           - len (drop scratch (drop_duplicates scratch (with_rounded d df))))).
Proof.
  intros Hd. unfold filter_unique_features. rewrite Hd. reflexivity.
Qed.

Lemma keys_by_position (A : Type) (f1 f2 : A -> Value) (l : list A) (d1 d2 : Value) :
  map (fun i => [nth i (map f1 l) d1; nth i (map f2 l) d2]) (seq 0 (List.length l))
  = map (fun c => [f1 c; f2 c]) l.
Proof.
  induction l as [|a l IH]; [reflexivity|].
  cbn [List.length seq map]. rewrite <- seq_shift, map_map.
  cbn [nth]. now rewrite IH.
Qed.

Lemma subset_keys_rounded (d : Z) (df : GeoDataFrame) :
  List.length (geometry df) = List.length (index df) ->
  subset_keys scratch (with_rounded d df) = map (rounded_key d) (geometry df).
Proof.
  intros Hlen. unfold subset_keys, with_rounded, set_column, scratch.
  cbn [index columns map]. rewrite <- Hlen.
  rewrite get_set_item_other by reflexivity.
  rewrite !get_set_item_same.
  apply (keys_by_position Coord
           (fun c => VFloat (round_decimals d (fst c)))
           (fun c => VFloat (round_decimals d (snd c)))).
Qed.

Lemma key_eqb_rounded (d : Z) (a b : Coord) :
  key_eqb (rounded_key d a) (rounded_key d b) = same_rounded d a b.
Proof.
  unfold key_eqb, rounded_key, same_rounded; cbn.
  now rewrite andb_true_r.
Qed.

(** A row is kept exactly when no earlier row rounds to its coordinate. *)
Lemma kept_rows_spec (d : Z) (df : GeoDataFrame) (i : nat) :
  (i < List.length (geometry df))%nat ->
  nth i (kept_rows d df) false = true <->
  forall j, (j < i)%nat ->
    same_rounded d (nth i (geometry df) (0, 0)%Q) (nth j (geometry df) (0, 0)%Q)
    = false.
Proof.
  intros Hi. unfold kept_rows, duplicated.
  set (keys := map (rounded_key d) (geometry df)).
  assert (Hk : List.length keys = List.length (geometry df))
    by (unfold keys; apply length_map).
  assert (Hn : forall j, (j < List.length (geometry df))%nat ->
             nth j keys [] = rounded_key d (nth j (geometry df) (0, 0)%Q)).
  { intros j Hj. unfold keys.
    rewrite (nth_indep _ [] (rounded_key d (0, 0)%Q))
      by (rewrite length_map; exact Hj).
    apply map_nth. }
  rewrite (nth_indep _ false (negb true))
    by (rewrite length_map, duplicated_from_length; lia).
  rewrite map_nth.
  rewrite (nth_indep _ true false) by (rewrite duplicated_from_length; lia).
  rewrite negb_true_iff, <- not_true_iff_false.
  rewrite duplicated_from_spec by lia. cbn [existsb].
  split.
  - intros Hno j Hj. apply not_true_iff_false. intros He. apply Hno. right.
    exists j. split; [exact Hj|].
    rewrite (Hn i Hi), (Hn j ltac:(lia)), key_eqb_rounded. exact He.
  - intros Hall [Hf | (j & Hj & He)]; [discriminate|].
    rewrite (Hn i Hi), (Hn j ltac:(lia)), key_eqb_rounded in He.
    rewrite (Hall j Hj) in He. discriminate.
Qed.

Lemma kept_rows_length (d : Z) (df : GeoDataFrame) :
  List.length (kept_rows d df) = List.length (geometry df).
Proof.
  unfold kept_rows, duplicated.
  now rewrite length_map, duplicated_from_length, length_map.
Qed.

(** What the deduplicator returns, column by column. *)
Lemma unique_claims_columns (d : Z) (df : GeoDataFrame) :
  List.length (geometry df) = List.length (index df) ->
  drop scratch (drop_duplicates scratch (with_rounded d df))
  = mkFrame (take_rows (kept_rows d df) (index df))
            (take_rows (kept_rows d df) (geometry df))
            (map (fun c => (fst c, take_rows (kept_rows d df) (snd c)))
                 (filter not_scratch (columns df))).
Proof.
  intros Hlen. unfold drop, drop_duplicates.
  rewrite (subset_keys_rounded d df Hlen). fold (kept_rows d df).
  cbn [index geometry columns]. f_equal.
  change (fun c : string * list Value =>
            negb (existsb (String.eqb (fst c)) scratch)) with not_scratch.
  unfold with_rounded, set_column; cbn [columns].
  set (f := fun c : string * list Value => (fst c, take_rows (kept_rows d df) (snd c))).
  assert (Hcomm : forall cols, filter not_scratch (map f cols)
                               = map f (filter not_scratch cols)).
  { induction cols as [|c cols IH]; [reflexivity|].
    cbn [map filter]. change (not_scratch (f c)) with (not_scratch c).
    destruct (not_scratch c); cbn [map]; now rewrite IH. }
  rewrite Hcomm. f_equal.
  rewrite !filter_set_item_scratch by reflexivity. reflexivity.
Qed.

Lemma well_formed_lengths (df : GeoDataFrame) :
  well_formed df = true ->
  List.length (geometry df) = List.length (index df)
  /\ Forall (fun c => List.length (snd c) = List.length (index df)) (columns df).
Proof.
  unfold well_formed. intros H. apply andb_true_iff in H as [Hg Hc].
  split; [now apply Nat.eqb_eq|].
  rewrite forallb_forall in Hc. apply Forall_forall. intros c Hin.
  now apply Nat.eqb_eq, Hc.
Qed.

Lemma take_rows_all_columns (keep : list bool) (n : nat)
  (cols : list (string * list Value)) :
  List.length keep = n ->
  (forall i, (i < List.length keep)%nat -> nth i keep false = true) ->
  Forall (fun c => List.length (snd c) = n) cols ->
  map (fun c => (fst c, take_rows keep (snd c))) cols = cols.
Proof.
  intros Hk Hall Hc. induction Hc as [|[name c] cols Hlen _ IH]; [reflexivity|].
  cbn [map fst snd] in *. rewrite IH. f_equal. f_equal.
  apply take_rows_all; [lia | exact Hall].
Qed.

(** The caller's frame carries the two rounded columns after the call. *)
Lemma filter_unique_features_leaves_columns (df : GeoDataFrame) (precision : Q)
  (out : Filtered) :
  filter_unique_features df precision = Ok out ->
  exists d,
    decimals_of precision = Ok d
    /\ get_item "rounded_x" (columns (claims_gdf_after out))
       = map (fun c => VFloat (round_decimals d (fst c))) (geometry df)
    /\ get_item "rounded_y" (columns (claims_gdf_after out))
       = map (fun c => VFloat (round_decimals d (snd c))) (geometry df).
Proof.
  unfold filter_unique_features.
  destruct (decimals_of precision) as [d|e] eqn:Hd; cbn [bind]; [|discriminate].
  intros H; injection H as <-. exists d. split; [reflexivity|].
  cbn [claims_gdf_after set_column columns geometry]. split.
  - rewrite get_set_item_other by reflexivity. apply get_set_item_same.
  - apply get_set_item_same.
Qed.

(** C9 at a failing input: after deduplicating [three_claims] the frame
    the caller passed holds two columns it did not hold before. *)
Theorem dedup_changes_callers_frame :
  exists out,
    filter_unique_features three_claims (1 # 100000) = Ok out
    /\ map fst (columns three_claims) = ["claim_id"%string]
    /\ map fst (columns (claims_gdf_after out))
       = ["claim_id"; "rounded_x"; "rounded_y"]%string
    /\ claims_gdf_after out <> three_claims.
Proof.
  eexists. split; [reflexivity|]. split; [reflexivity|]. split; [reflexivity|].
  intros H. apply (f_equal (fun f => List.length (columns f))) in H.
  vm_compute in H. discriminate H.
Qed.

(** ** Aggregation *)

Lemma dict_incr_counts (k : Z) (d d' : list (Z * Z)) :
  dict_incr k d = Ok d' ->
  map fst d' = map fst d
  /\ sum_values d' = sum_values d + 1
  /\ dict_get 0 d' = dict_get 0 d + (if k =? 0 then 1 else 0)
  /\ In k (map fst d).
Proof.
  revert d'; induction d as [|[k' v] rest IH]; intros d' H; cbn [dict_incr] in H.
  - discriminate.
  - destruct (Z.eqb_spec k' k) as [-> | Hne].
    + injection H as <-. unfold sum_values, dict_get; cbn [map fst snd fold_right find].
      destruct (Z.eqb_spec k 0); repeat split; try lia; now left.
    + destruct (dict_incr k rest) as [rest'|e]; cbn [bind] in H; [|discriminate].
      injection H as <-. destruct (IH rest' eq_refl) as (Hk & Hs & Hg & Hin).
      unfold sum_values, dict_get in *; cbn [map fst snd fold_right find].
      rewrite Hk. repeat split; try lia; [|now right].
      destruct (Z.eqb_spec k' 0) as [-> | Hk0].
      * destruct (Z.eqb_spec k 0); [congruence | lia].
      * exact Hg.
Qed.

(** The loop adds one to the histogram per claim, and one to
    [covered_claims] per claim that is not counted under key 0. *)
Lemma check_each_claim_counts (g : GeoLib) (r : Raster) (claims : list Coord)
  (covered covered' : Z) (d d' : list (Z * Z)) :
  Forall (fun k => 0 <= k) (map fst d) ->
  check_each_claim g r claims covered d = Ok (covered', d') ->
  sum_values d' = sum_values d + Z.of_nat (List.length claims)
  /\ covered' + dict_get 0 d'
     = covered + dict_get 0 d + Z.of_nat (List.length claims).
Proof.
  revert covered d; induction claims as [|claim rest IH]; intros covered d Hkeys H.
  - cbn in H. injection H as <- <-. cbn [List.length]. lia.
  - cbn [check_each_claim] in H.
    destruct (check_flood_at_point g claim r (2 # 100000)) as [cat|e];
      cbn [bind] in H; [|discriminate].
    destruct (dict_incr cat d) as [d1|e] eqn:Hd; cbn [bind] in H; [|discriminate].
    destruct (dict_incr_counts cat d d1 Hd) as (Hk & Hs & Hg & Hin).
    apply IH in H; [|now rewrite Hk].
    destruct H as [Hsum Hcov].
    assert (0 <= cat) by (rewrite Forall_forall in Hkeys; now apply Hkeys).
    cbn [List.length]. rewrite Nat2Z.inj_succ.
    destruct (Z.ltb_spec 0 cat), (Z.eqb_spec cat 0); lia.
Qed.

Lemma map_result_length (A B : Type) (f : A -> result B) (l : list A) (l' : list B) :
  map_result f l = Ok l' -> List.length l' = List.length l.
Proof.
  revert l'; induction l as [|x xs IH]; intros l' H; cbn [map_result] in H.
  - injection H as <-. reflexivity.
  - destruct (f x); cbn [bind] in H; [|discriminate].
    destruct (map_result f xs) as [ys|e]; cbn [bind] in H; [|discriminate].
    injection H as <-. cbn. now rewrite (IH ys eq_refl).
Qed.

Lemma default_precision_decimals : decimals_of (1 # 100000) = Ok 5.
Proof. reflexivity. Qed.

(** Histogram conservation on every run that returns: the histogram
    sums to [total_claims], and [covered_claims] and bucket 0 make up
    [total_claims]. *)
Lemma histogram_conservation (g : GeoLib) (r : Raster) (df : GeoDataFrame)
  (res : AccuracyResult) :
  List.length (geometry df) = List.length (index df) ->
  analyze_flood_accuracy g r df = Ok res ->
  sum_values (flood_categories res) = total_claims res
  /\ covered_claims res + dict_get 0 (flood_categories res) = total_claims res.
Proof.
  intros Hlen. unfold analyze_flood_accuracy.
  destruct (frame_to_crs g df) as [crs|e] eqn:Hcrs; cbn [bind]; [|discriminate].
  rewrite (filter_unique_features_unfold _ _ 5 default_precision_decimals).
  cbn [bind unique_claims].
  assert (Hov : List.length (geometry (overlay g crs))
                = List.length (index (overlay g crs))).
  { unfold overlay; cbn [geometry index]. rewrite length_map, length_seq.
    apply take_rows_length.
    unfold frame_to_crs in Hcrs.
    destruct (map_result (to_crs g) (geometry df)) as [gs|e] eqn:Hm;
      cbn [bind] in Hcrs; [|discriminate].
    injection Hcrs as <-. cbn [geometry index].
    rewrite (map_result_length _ _ _ _ _ Hm). exact Hlen. }
  rewrite (unique_claims_columns 5 _ Hov).
  set (keep := kept_rows 5 (overlay g crs)).
  remember (overlay g crs) as cropped eqn:Hcropped.
  unfold len; cbn [index geometry].
  destruct (Z.eqb_spec (Z.of_nat (List.length (take_rows keep (index cropped)))) 0)
    as [Hz | Hnz].
  - intros H; injection H as <-. cbn. split; reflexivity.
  - destruct (check_each_claim g r (take_rows keep (geometry cropped)) 0
                [(0, 0); (1, 0); (2, 0); (3, 0); (4, 0)])
      as [[covered hist]|e] eqn:Hloop; cbn [bind]; [|discriminate].
    intros H; injection H as <-.
    cbn [total_claims covered_claims flood_categories].
    apply check_each_claim_counts in Hloop.
    + rewrite (take_rows_length _ _ keep _ (index cropped) Hov) in Hloop.
      change (sum_values [(0, 0); (1, 0); (2, 0); (3, 0); (4, 0)]) with 0 in Hloop.
      change (dict_get 0 [(0, 0); (1, 0); (2, 0); (3, 0); (4, 0)]) with 0 in Hloop.
      lia.
    + cbn [map fst]. repeat (apply Forall_cons; [lia|]). apply Forall_nil.
Qed.

(** C7 at a failing input: one claim on the no-data cell of
    [gap_next_to_minor] resolves to the sentinel 255, the histogram has
    no bucket of that key, and the run ends in [KeyError] without a
    result. *)
Theorem histogram_run_raises :
  check_flood_at_point (Grid.env gap_next_to_minor) (Grid.centre 0 0)
    gap_next_to_minor (2 # 100000) = Ok 255
  /\ analyze_flood_accuracy (Grid.env gap_next_to_minor) gap_next_to_minor
       claim_at_origin_cell
     = Raise (KeyError 255).
Proof. split; reflexivity. Qed.

Lemma filter_unique_features_default (df : GeoDataFrame) :
  exists out, filter_unique_features df (1 # 100000) = Ok out.
Proof.
  eexists. apply (filter_unique_features_unfold df _ 5 default_precision_decimals).
Qed.

(** C8: once the claims are reprojected, deduplication at the default
    precision returns; when no feature remains after cropping and
    deduplicating, the run returns the zero result (counts 0, accuracy
    0, five empty buckets); and every result with [total_claims > 0]
    has [accuracy = covered_claims / total_claims]. *)
Theorem empty_run_and_accuracy (g : GeoLib) (r : Raster)
  (df crs : GeoDataFrame) :
  frame_to_crs g df = Ok crs ->
  exists filtered,
    filter_unique_features (overlay g crs) (1 # 100000) = Ok filtered
    /\ (len (unique_claims filtered) = 0 ->
        analyze_flood_accuracy g r df
        = Ok (mkResult 0 0 0 [(0, 0); (1, 0); (2, 0); (3, 0); (4, 0)]))
    /\ (forall res, analyze_flood_accuracy g r df = Ok res ->
        0 < total_claims res ->
        accuracy res
        = (inject_Z (covered_claims res) / inject_Z (total_claims res))%Q).
Proof.
  intros Hcrs.
  destruct (filter_unique_features_default (overlay g crs)) as [filtered Hf].
  exists filtered. split; [exact Hf|].
  unfold analyze_flood_accuracy. rewrite Hcrs; cbn [bind]. rewrite Hf; cbn [bind].
  split.
  - intros Hz. now rewrite Hz.
  - intros res.
    destruct (Z.eqb_spec (len (unique_claims filtered)) 0) as [Hz | Hnz].
    + intros H; injection H as <-. cbn [total_claims]. lia.
    + destruct (check_each_claim g r (geometry (unique_claims filtered)) 0
                  [(0, 0); (1, 0); (2, 0); (3, 0); (4, 0)])
        as [[covered hist]|e]; cbn [bind]; [|discriminate].
      intros H; injection H as <-.
      cbn [total_claims covered_claims accuracy]. intros Hpos.
      destruct (Z.ltb_spec 0 (len (unique_claims filtered))); [reflexivity | lia].
Qed.

(** A claim outside the footprint leaves nothing to count; two claims on
    a dry and a flooded cell give the accuracy 1/2. *)
Lemma empty_run_and_accuracy_witness :
  analyze_flood_accuracy (Grid.env dry_next_to_minor) dry_next_to_minor
    claim_outside
  = Ok (mkResult 0 0 0 [(0, 0); (1, 0); (2, 0); (3, 0); (4, 0)])
  /\ exists res,
       analyze_flood_accuracy (Grid.env dry_next_to_minor) dry_next_to_minor
         two_cell_claims = Ok res
       /\ total_claims res = 2
       /\ accuracy res = (inject_Z 1 / inject_Z 2)%Q.
Proof.
  split.
  - destruct (empty_run_and_accuracy (Grid.env dry_next_to_minor)
                dry_next_to_minor claim_outside claim_outside eq_refl)
      as (filtered & Hf & Hzero & _).
    apply Hzero. vm_compute in Hf. injection Hf as <-. reflexivity.
  - destruct (empty_run_and_accuracy (Grid.env dry_next_to_minor)
                dry_next_to_minor two_cell_claims two_cell_claims eq_refl)
      as (filtered & _ & _ & Hacc).
    eexists. split; [reflexivity|]. split; [reflexivity|].
    rewrite (Hacc _ eq_refl); reflexivity.
Defined.

(** * Further properties of the code *)

(** ** The resolvers *)

Lemma region_max_nonneg (g : GeoLib) (r : Raster) (s : Shape g) :
  0 <= max_category_in_region g r s.
Proof.
  unfold max_category_in_region.
  destruct (window_of g s); [apply fold_right_max_nonneg | lia].
Qed.

Lemma cell_at_most_4 (r : Raster) (row col : Z) :
  cells_at_most_4 r = true -> cell r row col <= 4.
Proof.
  intros H. unfold cell, cells_at_most_4 in *.
  rewrite forallb_forall in H.
  destruct (nth_in_or_default (Z.to_nat row) (band r) []) as [Hin | Hd].
  - specialize (H _ Hin). rewrite forallb_forall in H.
    destruct (nth_in_or_default (Z.to_nat col) (nth (Z.to_nat row) (band r) []) 0)
      as [Hin' | Hd'].
    + apply Z.leb_le. now apply H.
    + rewrite Hd'. lia.
  - rewrite Hd. destruct (Z.to_nat col); simpl; lia.
Qed.

Lemma region_max_at_most_4 (g : GeoLib) (r : Raster) (s : Shape g) :
  cells_at_most_4 r = true -> max_category_in_region g r s <= 4.
Proof.
  intros H. unfold max_category_in_region.
  destruct (window_of g s) as [w|e]; [|lia].
  apply fold_right_max_upper; [lia|].
  rewrite Forall_map, Forall_forall. intros rc _. now apply cell_at_most_4.
Qed.

(** The three ways the analyzer's resolver ends. *)
Lemma check_flood_at_point_cases (g : GeoLib) (r : Raster) (d : Q) (p : Coord) :
  Analyzer.check_flood_at_point g p r d = Ok 0
  \/ (exists q, to_crs g p = Ok q
      /\ Analyzer.check_flood_at_point g p r d
         = Ok (max_category_in_region g r (buffer g q d)))
  \/ (exists row col,
        0 < cell r row col
        /\ Analyzer.check_flood_at_point g p r d = Ok (cell r row col)).
Proof.
  destruct (to_crs g p) as [q|e] eqn:Hq.
  - destruct (rowcol g q) as [row col] eqn:Hrc.
    destruct (in_bounds r row col) eqn:Hb.
    + destruct (Z.ltb_spec 0 (cell r row col)) as [Hpos | Hnp].
      * right; right. exists row, col. split; [exact Hpos|].
        now apply (check_flood_at_point_exact g r d p q row col).
      * right; left. exists q. split; [reflexivity|].
        apply (check_flood_at_point_fallback g r d p q row col); auto.
    + right; left. exists q. split; [reflexivity|].
      apply (check_flood_at_point_fallback g r d p q row col); auto.
  - left. now apply (check_flood_at_point_fault g r d p e).
Qed.

(** X1: [check_flood_at_point] never raises, whatever the libraries do,
    and the category it returns is never negative. *)
Theorem analyzer_resolver_returns_nonnegative (g : GeoLib) (r : Raster)
  (d : Q) (p : Coord) :
  exists c, Analyzer.check_flood_at_point g p r d = Ok c /\ 0 <= c.
Proof.
  destruct (check_flood_at_point_cases g r d p)
    as [H | [(q & _ & H) | (row & col & Hpos & H)]]; rewrite H.
  - exists 0. split; [reflexivity | lia].
  - eexists. split; [reflexivity | apply region_max_nonneg].
  - eexists. split; [reflexivity | lia].
Qed.

(** X2: once the point is reprojected, [get_flood_category_at_point]
    returns, and what it returns is a category of 0..4, whatever the
    raster holds. *)
Theorem mapper_resolver_returns_category (g : GeoLib) (r : Raster) (d : Q)
  (p q : Coord) :
  to_crs g p = Ok q ->
  exists c,
    Mapper.get_flood_category_at_point g (Mapper.new_mapper r d) p = Ok c
    /\ 0 <= c <= 4.
Proof.
  intros Hq. destruct (rowcol g q) as [row col] eqn:Hrc.
  assert (Hfall : in_bounds r row col = false \/ ~ (0 <= cell r row col <= 4) ->
          exists c,
            Mapper.get_flood_category_at_point g (Mapper.new_mapper r d) p = Ok c
            /\ 0 <= c <= 4).
  { intros Hcase.
    rewrite (get_flood_category_at_point_fallback g r d p q row col Hq Hrc Hcase).
    eexists. split; [reflexivity|].
    pose proof (region_max_nonneg g r (buffer g q d)).
    destruct (Z.leb_spec (max_category_in_region g r (buffer g q d)) 4); lia. }
  destruct (in_bounds r row col) eqn:Hb; [|auto].
  destruct (Z.le_gt_cases 0 (cell r row col)) as [Hlo | Hlo];
    [destruct (Z.le_gt_cases (cell r row col) 4) as [Hhi | Hhi]|].
  - exists (cell r row col). split; [|lia].
    apply (get_flood_category_at_point_exact g r d p q row col); auto.
  - apply Hfall. right. lia.
  - apply Hfall. right. lia.
Qed.

Lemma mapper_resolver_returns_category_witness :
  exists c,
    Mapper.get_flood_category_at_point (Grid.env gap_next_to_minor)
      (Mapper.new_mapper gap_next_to_minor (3 # 2)) (Grid.centre 0 0) = Ok c
    /\ 0 <= c <= 4.
Proof.
  apply (mapper_resolver_returns_category (Grid.env gap_next_to_minor)
           gap_next_to_minor (3 # 2) (Grid.centre 0 0) (Grid.centre 0 0)).
  reflexivity.
Defined.

(** X3: on a raster none of whose cells exceeds 4,
    [check_flood_at_point] returns a category of 0..4. *)
Theorem analyzer_resolver_range (g : GeoLib) (r : Raster) (d : Q) (p : Coord) :
  cells_at_most_4 r = true ->
  exists c, Analyzer.check_flood_at_point g p r d = Ok c /\ 0 <= c <= 4.
Proof.
  intros Hr.
  destruct (check_flood_at_point_cases g r d p)
    as [H | [(q & _ & H) | (row & col & Hpos & H)]]; rewrite H.
  - exists 0. split; [reflexivity | lia].
  - eexists. split; [reflexivity|]. split.
    + apply region_max_nonneg.
    + now apply region_max_at_most_4.
  - eexists. split; [reflexivity|]. split; [lia|]. now apply cell_at_most_4.
Qed.

Lemma analyzer_resolver_range_witness :
  cells_at_most_4 dry_next_to_minor = true
  /\ exists c,
       Analyzer.check_flood_at_point (Grid.env dry_next_to_minor)
         (Grid.centre 0 0) dry_next_to_minor (3 # 2) = Ok c
       /\ 0 <= c <= 4.
Proof.
  split; [reflexivity|].
  apply (analyzer_resolver_range (Grid.env dry_next_to_minor)
           dry_next_to_minor (3 # 2) (Grid.centre 0 0)).
  reflexivity.
Defined.

(** ** The aggregator *)

Lemma take_rows_length_le (A : Type) (keep : list bool) (l : list A) :
  (List.length (take_rows keep l) <= List.length l)%nat.
Proof.
  revert l; induction keep as [|b bs IH]; intros l; [simpl; lia|].
  destruct l as [|x xs]; [simpl; lia|].
  specialize (IH xs). destruct b; simpl; lia.
Qed.

Lemma take_rows_map_filter (A : Type) (f : A -> bool) (l : list A) :
  take_rows (map f l) l = filter f l.
Proof.
  induction l as [|x xs IH]; [reflexivity|].
  simpl. destruct (f x); now rewrite IH.
Qed.

(** The run, once the claims are reprojected: the claims that remain
    are counted, and either none remains or the loop runs over them. *)
Lemma analyze_flood_accuracy_unfold (g : GeoLib) (r : Raster)
  (df crs : GeoDataFrame) :
  List.length (geometry df) = List.length (index df) ->
  frame_to_crs g df = Ok crs ->
  exists claims,
    (List.length claims <= List.length (filter (footprint g) (geometry crs)))%nat
    /\ analyze_flood_accuracy g r df
       = if Z.of_nat (List.length claims) =? 0
         then Ok (mkResult 0 0 0 empty_histogram)
         else
           counted <- check_each_claim g r claims 0 empty_histogram ;;
           Ok (mkResult (Z.of_nat (List.length claims)) (fst counted)
                 (if 0 <? Z.of_nat (List.length claims)
                  then (inject_Z (fst counted)
                        / inject_Z (Z.of_nat (List.length claims)))%Q
                  else 0%Q)
                 (snd counted)).
Proof.
  intros Hlen Hcrs.
  assert (Hgeom : List.length (geometry crs) = List.length (index crs)).
  { unfold frame_to_crs in Hcrs.
    destruct (map_result (to_crs g) (geometry df)) as [gs|e] eqn:Hm;
      cbn [bind] in Hcrs; [|discriminate].
    injection Hcrs as <-. cbn [geometry index].
    rewrite (map_result_length _ _ _ _ _ Hm). exact Hlen. }
  assert (Hov : List.length (geometry (overlay g crs))
                = List.length (index (overlay g crs))).
  { unfold overlay; cbn [geometry index]. rewrite length_map, length_seq.
    now apply take_rows_length. }
  exists (take_rows (kept_rows 5 (overlay g crs)) (geometry (overlay g crs))).
  split.
  - etransitivity; [apply take_rows_length_le|].
    unfold overlay; cbn [geometry]. now rewrite take_rows_map_filter.
  - unfold analyze_flood_accuracy. rewrite Hcrs; cbn [bind].
    rewrite (filter_unique_features_unfold _ _ 5 default_precision_decimals).
    cbn [bind unique_claims].
    rewrite (unique_claims_columns 5 _ Hov).
    remember (overlay g crs) as cropped eqn:Hcropped.
    unfold len; cbn [index geometry].
    rewrite (take_rows_length _ _ (kept_rows 5 cropped) (index cropped)
               (geometry cropped)) by (symmetry; exact Hov).
    destruct (Z.of_nat (List.length (take_rows (kept_rows 5 cropped)
                                       (geometry cropped))) =? 0);
      [reflexivity|].
    destruct (check_each_claim g r _ 0 _) as [[covered hist]|e];
      reflexivity.
Qed.

Lemma dict_incr_present (k : Z) (d : list (Z * Z)) :
  In k (map fst d) -> exists d', dict_incr k d = Ok d'.
Proof.
  induction d as [|[k' v] rest IH]; intros Hin; [destruct Hin|].
  cbn [dict_incr]. destruct (Z.eqb_spec k' k) as [-> | Hne]; [eauto|].
  destruct Hin as [Heq | Hin]; [cbn in Heq; congruence|].
  destruct (IH Hin) as [rest' ->]. cbn [bind]. eauto.
Qed.

Lemma dict_incr_nonneg (k : Z) (d d' : list (Z * Z)) :
  dict_incr k d = Ok d' ->
  Forall (fun kv => 0 <= snd kv) d -> Forall (fun kv => 0 <= snd kv) d'.
Proof.
  revert d'; induction d as [|[k' v] rest IH]; intros d' H Hd;
    cbn [dict_incr] in H; [discriminate|].
  inversion Hd as [|? ? Hv Hrest]; subst.
  destruct (k' =? k).
  - injection H as <-. constructor; [cbn [snd] in *; lia | exact Hrest].
  - destruct (dict_incr k rest) as [rest'|e]; cbn [bind] in H; [|discriminate].
    injection H as <-. constructor; [exact Hv | now apply IH].
Qed.

Lemma dict_get_nonneg (k : Z) (d : list (Z * Z)) :
  Forall (fun kv => 0 <= snd kv) d -> 0 <= dict_get k d.
Proof.
  intros Hd. unfold dict_get.
  destruct (find (fun kv => fst kv =? k) d) as [kv|] eqn:Hf; [|lia].
  apply find_some in Hf as [Hin _]. rewrite Forall_forall in Hd. now apply Hd.
Qed.

(** The loop never lowers [covered_claims] nor a bucket below 0. *)
Lemma check_each_claim_nonneg (g : GeoLib) (r : Raster) (claims : list Coord)
  (covered covered' : Z) (d d' : list (Z * Z)) :
  check_each_claim g r claims covered d = Ok (covered', d') ->
  Forall (fun kv => 0 <= snd kv) d ->
  covered <= covered' /\ Forall (fun kv => 0 <= snd kv) d'.
Proof.
  revert covered d; induction claims as [|claim rest IH]; intros covered d H Hd.
  - cbn in H. injection H as <- <-. split; [lia | exact Hd].
  - cbn [check_each_claim] in H.
    destruct (check_flood_at_point g claim r (2 # 100000)) as [cat|e];
      cbn [bind] in H; [|discriminate].
    destruct (dict_incr cat d) as [d1|e] eqn:Hd1; cbn [bind] in H; [|discriminate].
    apply IH in H; [|now apply (dict_incr_nonneg cat d d1)].
    destruct H as [Hc Hf]. split; [|exact Hf].
    destruct (0 <? cat); lia.
Qed.

(** The loop returns when every claim resolves to a key of the
    histogram. *)
Lemma check_each_claim_returns (g : GeoLib) (r : Raster) (claims : list Coord)
  (covered : Z) (d : list (Z * Z)) :
  (forall claim, exists c,
      check_flood_at_point g claim r (2 # 100000) = Ok c
      /\ In c (map fst d)) ->
  exists counted, check_each_claim g r claims covered d = Ok counted.
Proof.
  intros Hres. revert covered d Hres.
  induction claims as [|claim rest IH]; intros covered d Hres.
  - cbn. eauto.
  - cbn [check_each_claim].
    destruct (Hres claim) as (c & -> & Hin). cbn [bind].
    destruct (dict_incr_present c d Hin) as [d1 Hd1]. rewrite Hd1; cbn [bind].
    apply IH. intros claim'. destruct (Hres claim') as (c' & Hc' & Hin').
    exists c'. split; [exact Hc'|].
    destruct (dict_incr_counts c d d1 Hd1) as (Hk & _). now rewrite Hk.
Qed.

(** X4: on every run that returns, the five buckets sum to
    [total_claims], [covered_claims] and bucket 0 make up
    [total_claims], [covered_claims] lies between 0 and [total_claims],
    and the accuracy lies between 0 and 1. *)
Theorem aggregator_counts (g : GeoLib) (r : Raster) (df : GeoDataFrame)
  (res : AccuracyResult) :
  List.length (geometry df) = List.length (index df) ->
  analyze_flood_accuracy g r df = Ok res ->
  sum_values (flood_categories res) = total_claims res
  /\ covered_claims res + dict_get 0 (flood_categories res) = total_claims res
  /\ 0 <= covered_claims res <= total_claims res
  /\ (0 <= accuracy res <= 1)%Q.
Proof.
  intros Hlen Hres.
  destruct (frame_to_crs g df) as [crs|e] eqn:Hcrs.
  2: { unfold analyze_flood_accuracy in Hres. rewrite Hcrs in Hres. discriminate. }
  destruct (analyze_flood_accuracy_unfold g r df crs Hlen Hcrs) as (claims & _ & Heq).
  rewrite Heq in Hres. clear Heq.
  destruct (Z.eqb_spec (Z.of_nat (List.length claims)) 0) as [Hz | Hnz].
  - injection Hres as <-. cbn. repeat split; try lia; discriminate.
  - destruct (check_each_claim g r claims 0 empty_histogram)
      as [[covered hist]|e] eqn:Hloop; cbn [bind] in Hres; [|discriminate].
    injection Hres as <-.
    cbn [total_claims covered_claims flood_categories accuracy fst snd].
    assert (Hinit : Forall (fun kv : Z * Z => 0 <= snd kv) empty_histogram).
    { unfold empty_histogram. repeat (apply Forall_cons; [cbn; lia|]).
      apply Forall_nil. }
    destruct (check_each_claim_nonneg g r claims 0 covered _ hist Hloop Hinit)
      as [Hcov Hhist].
    pose proof (dict_get_nonneg 0 hist Hhist) as Hzero.
    apply check_each_claim_counts in Hloop.
    2: { unfold empty_histogram; cbn [map fst].
         repeat (apply Forall_cons; [lia|]). apply Forall_nil. }
    change (sum_values empty_histogram) with 0 in Hloop.
    change (dict_get 0 empty_histogram) with 0 in Hloop.
    destruct Hloop as [Hsum Hbal].
    split; [lia|]. split; [lia|]. split; [lia|].
    assert (Hpos : 0 < Z.of_nat (List.length claims)) by lia.
    destruct (Z.ltb_spec 0 (Z.of_nat (List.length claims))); [|lia].
    assert (HposQ : (0 < inject_Z (Z.of_nat (List.length claims)))%Q).
    { change 0%Q with (inject_Z 0). now rewrite <- Zlt_Qlt. }
    split.
    + apply Qle_shift_div_l; [exact HposQ|].
      rewrite Qmult_0_l. change 0%Q with (inject_Z 0). rewrite <- Zle_Qle. lia.
    + apply Qle_shift_div_r; [exact HposQ|].
      rewrite Qmult_1_l. rewrite <- Zle_Qle. lia.
Qed.

Lemma aggregator_counts_witness :
  exists res,
    analyze_flood_accuracy (Grid.env dry_next_to_minor) dry_next_to_minor
      two_cell_claims = Ok res
    /\ sum_values (flood_categories res) = 2
    /\ covered_claims res = 1.
Proof.
  eexists. split; [reflexivity|].
  destruct (aggregator_counts (Grid.env dry_next_to_minor) dry_next_to_minor
              two_cell_claims _ eq_refl eq_refl) as (Hsum & _).
  split; [exact Hsum | reflexivity].
Defined.

(** X5: on a raster none of whose cells exceeds 4, the run returns a
    result as soon as the claims can be reprojected: no claim can miss
    the five buckets. *)
Theorem aggregator_returns (g : GeoLib) (r : Raster) (df crs : GeoDataFrame) :
  cells_at_most_4 r = true ->
  List.length (geometry df) = List.length (index df) ->
  frame_to_crs g df = Ok crs ->
  exists res, analyze_flood_accuracy g r df = Ok res.
Proof.
  intros Hr Hlen Hcrs.
  destruct (analyze_flood_accuracy_unfold g r df crs Hlen Hcrs) as (claims & _ & ->).
  destruct (Z.of_nat (List.length claims) =? 0); [eauto|].
  destruct (check_each_claim_returns g r claims 0 empty_histogram) as [counted ->].
  - intros claim.
    destruct (check_flood_at_point_cases g r (2 # 100000) claim)
      as [H | [(q & _ & H) | (row & col & Hpos & H)]]; rewrite H;
      eexists; (split; [reflexivity|]).
    + cbn. auto.
    + pose proof (region_max_nonneg g r (buffer g q (2 # 100000))).
      pose proof (region_max_at_most_4 g r (buffer g q (2 # 100000)) Hr).
      unfold empty_histogram; cbn [map fst In]. lia.
    + pose proof (cell_at_most_4 r row col Hr).
      unfold empty_histogram; cbn [map fst In]. lia.
  - cbn [bind]. eauto.
Qed.

Lemma aggregator_returns_witness :
  cells_at_most_4 dry_next_to_minor = true
  /\ exists res,
       analyze_flood_accuracy (Grid.env dry_next_to_minor) dry_next_to_minor
         two_cell_claims = Ok res.
Proof.
  split; [reflexivity|].
  apply (aggregator_returns (Grid.env dry_next_to_minor) dry_next_to_minor
           two_cell_claims two_cell_claims); reflexivity.
Defined.

(** ** The deduplicator *)



Lemma duplicated_from_coords (d : Z) (seen l : list Coord) :
  duplicated_from (map (rounded_key d) seen) (map (rounded_key d) l)
  = dup_coords d seen l.
Proof.
  revert seen; induction l as [|c l IH]; intros seen; [reflexivity|].
  cbn [map duplicated_from dup_coords]. f_equal.
  - induction seen as [|s seen IHs]; [reflexivity|].
    cbn [map existsb]. now rewrite key_eqb_rounded, IHs.
  - apply (IH (c :: seen)).
Qed.

Lemma kept_rows_coords (d : Z) (df : GeoDataFrame) :
  kept_rows d df = map negb (dup_coords d [] (geometry df)).
Proof.
  unfold kept_rows, duplicated.
  now rewrite <- (duplicated_from_coords d [] (geometry df)).
Qed.

(** The kept points differ pairwise in their rounded coordinate, and
    from every point seen before. *)
Lemma kept_coords_distinct (d : Z) (l seen : list Coord) :
  ForallOrdPairs (fun a b => same_rounded d b a = false) (kept_coords d seen l)
  /\ Forall (fun b => existsb (same_rounded d b) seen = false)
            (kept_coords d seen l).
Proof.
  revert seen; induction l as [|c l IH]; intros seen.
  - split; constructor.
  - unfold kept_coords. cbn [dup_coords map take_rows].
    destruct (IH (c :: seen)) as [Hpairs Hseen]. fold (kept_coords d (c :: seen) l).
    assert (Hweak : Forall (fun b => same_rounded d b c = false
                                     /\ existsb (same_rounded d b) seen = false)
                           (kept_coords d (c :: seen) l)).
    { eapply Forall_impl; [|exact Hseen]. cbn [existsb]. intros b Hb.
      now apply orb_false_iff in Hb. }
    destruct (existsb (same_rounded d c) seen) eqn:Hdup; cbn [negb].
    + split; [exact Hpairs|].
      eapply Forall_impl; [|exact Hweak]. now intros b [_ Hb].
    + split.
      * constructor; [|exact Hpairs].
        eapply Forall_impl; [|exact Hweak]. now intros b [Hb _].
      * constructor; [exact Hdup|].
        eapply Forall_impl; [|exact Hweak]. now intros b [_ Hb].
Qed.


(** Among points that differ pairwise and from those seen, none is a
    duplicate. *)
Lemma dup_coords_none (d : Z) (l seen : list Coord) :
  ForallOrdPairs (fun a b => same_rounded d b a = false) l ->
  Forall (fun b => existsb (same_rounded d b) seen = false) l ->
  forall i, (i < List.length (map negb (dup_coords d seen l)))%nat ->
    nth i (map negb (dup_coords d seen l)) false = true.
Proof.
  revert seen; induction l as [|c l IH]; intros seen Hpairs Hseen i Hi.
  - simpl in Hi; lia.
  - inversion Hpairs as [|? ? Hc Hrest]; subst.
    inversion Hseen as [|? ? Hcs Hls]; subst.
    cbn [dup_coords map]. destruct i as [|i]; cbn [nth].
    + now rewrite Hcs.
    + apply IH; [exact Hrest | | simpl in Hi; lia].
      rewrite Forall_forall in *. intros b Hb. cbn [existsb].
      rewrite (Hc b Hb), (Hls b Hb). reflexivity.
Qed.

Lemma geometry_unique_claims (d : Z) (df : GeoDataFrame) :
  List.length (geometry df) = List.length (index df) ->
  geometry (drop scratch (drop_duplicates scratch (with_rounded d df)))
  = kept_coords d [] (geometry df).
Proof.
  intros Hlen. rewrite (unique_claims_columns d df Hlen). cbn [geometry].
  unfold kept_coords. now rewrite kept_rows_coords.
Qed.



(** A rectangular frame without scratch columns whose features differ
    pairwise in their rounded coordinate passes through unchanged. *)
Lemma dedup_fixed_point (d : Z) (u : GeoDataFrame) :
  well_formed u = true ->
  forallb not_scratch (columns u) = true ->
  ForallOrdPairs (fun a b => same_rounded d b a = false) (geometry u) ->
  drop scratch (drop_duplicates scratch (with_rounded d u)) = u.
Proof.
  intros Hwf Hns Hpairs.
  destruct (well_formed_lengths u Hwf) as [Hlen Hcols].
  rewrite (unique_claims_columns d u Hlen).
  assert (Hall : forall i, (i < List.length (kept_rows d u))%nat ->
            nth i (kept_rows d u) false = true).
  { rewrite kept_rows_coords. apply dup_coords_none; [exact Hpairs|].
    apply Forall_forall. reflexivity. }
  assert (Hk : List.length (kept_rows d u) = List.length (index u))
    by (rewrite kept_rows_length; exact Hlen).
  rewrite !take_rows_all by (exact Hall || lia).
  rewrite (filter_not_scratch_id _ Hns).
  rewrite (take_rows_all_columns _ (List.length (index u))); auto.
  now destruct u.
Qed.

Lemma unique_claims_well_formed (d : Z) (df : GeoDataFrame) :
  well_formed df = true ->
  well_formed (drop scratch (drop_duplicates scratch (with_rounded d df))) = true
  /\ forallb not_scratch
       (columns (drop scratch (drop_duplicates scratch (with_rounded d df))))
     = true.
Proof.
  intros Hwf. destruct (well_formed_lengths df Hwf) as [Hlen Hcols].
  rewrite (unique_claims_columns d df Hlen).
  unfold well_formed; cbn [index geometry columns]. split.
  - apply andb_true_iff. split.
    + apply Nat.eqb_eq. now apply take_rows_length.
    + apply forallb_forall. intros c Hin.
      apply in_map_iff in Hin as (c0 & <- & Hin0).
      apply filter_In in Hin0 as [Hin0 _]. cbn [snd].
      apply Nat.eqb_eq. apply take_rows_length.
      rewrite Forall_forall in Hcols. now apply Hcols.
  - apply forallb_forall. intros c Hin.
    apply in_map_iff in Hin as (c0 & <- & Hin0).
    apply filter_In in Hin0 as [_ Hc0]. exact Hc0.
Qed.

(** X8: deduplicating is idempotent: a second pass over the returned
    collection, at the same precision, returns it unchanged and reports
    0 removed. *)
Theorem dedup_idempotent (df : GeoDataFrame) (precision : Q) (out : Filtered) :
  well_formed df = true ->
  filter_unique_features df precision = Ok out ->
  exists out2,
    filter_unique_features (unique_claims out) precision = Ok out2
    /\ unique_claims out2 = unique_claims out
    /\ reported out2 = 0.
Proof.
  intros Hwf Hout.
  destruct (decimals_of precision) as [d|e] eqn:Hd.
  2: { unfold filter_unique_features in Hout. rewrite Hd in Hout. discriminate. }
  destruct (well_formed_lengths df Hwf) as [Hlen _].
  rewrite (filter_unique_features_unfold df precision d Hd) in Hout.
  injection Hout as <-. cbn [unique_claims].
  set (u := drop scratch (drop_duplicates scratch (with_rounded d df))).
  destruct (unique_claims_well_formed d df Hwf) as [Hwfu Hnsu]. fold u in Hwfu, Hnsu.
  assert (Hfix : drop scratch (drop_duplicates scratch (with_rounded d u)) = u).
  { apply dedup_fixed_point; [exact Hwfu | exact Hnsu |].
    unfold u. rewrite (geometry_unique_claims d df Hlen).
    apply kept_coords_distinct. }
  eexists. split; [apply (filter_unique_features_unfold u precision d Hd)|].
  cbn [unique_claims reported]. rewrite Hfix. split; [reflexivity|].
  unfold len, with_rounded, set_column; cbn [index]. lia.
Qed.

Lemma dedup_idempotent_witness :
  exists out out2,
    filter_unique_features three_claims (1 # 100000) = Ok out
    /\ filter_unique_features (unique_claims out) (1 # 100000) = Ok out2
    /\ unique_claims out2 = unique_claims out
    /\ reported out2 = 0.
Proof.
  destruct (dedup_idempotent three_claims (1 # 100000) _ eq_refl eq_refl)
    as (out2 & H2 & Hsame & Hzero).
  eexists. exists out2. split; [reflexivity|]. split; [exact H2|].
  split; [exact Hsame | exact Hzero].
Defined.

(** X9: at a precision of 0 or below the call raises instead of
    returning a collection: [OverflowError] at 0 and [ValueError]
    below. *)
Theorem dedup_rejects_nonpositive_precision (df : GeoDataFrame) (precision : Q) :
  (precision <= 0)%Q ->
  filter_unique_features df precision
  = Raise (if Qnum precision =? 0 then OverflowError else ValueError).
Proof.
  intros H. unfold Qle in H; simpl in H.
  unfold filter_unique_features, decimals_of.
  destruct (Z.eqb_spec (Qnum precision) 0); [reflexivity|].
  destruct (Z.ltb_spec (Qnum precision) 0); [reflexivity | lia].
Qed.

Lemma dedup_rejects_nonpositive_precision_witness :
  filter_unique_features three_claims 0 = Raise OverflowError
  /\ filter_unique_features three_claims (- (1 # 100000)) = Raise ValueError.
Proof.
  split.
  - apply (dedup_rejects_nonpositive_precision three_claims 0). discriminate.
  - apply (dedup_rejects_nonpositive_precision three_claims (- (1 # 100000))).
    discriminate.
Defined.

(** ** Lines and batches of the impact mapper *)

Lemma map_result_forall2 (A B : Type) (f : A -> result B) (l : list A) (l' : list B) :
  map_result f l = Ok l' -> Forall2 (fun x y => f x = Ok y) l l'.
Proof.
  revert l'; induction l as [|x xs IH]; intros l' H; cbn [map_result] in H.
  - injection H as <-. constructor.
  - destruct (f x) as [y|e] eqn:Hy; cbn [bind] in H; [|discriminate].
    destruct (map_result f xs) as [ys|e]; cbn [bind] in H; [|discriminate].
    injection H as <-. constructor; [exact Hy | now apply IH].
Qed.

Lemma map_result_raises (A B : Type) (f : A -> result B) (l : list A) (x : A) (e : exn) :
  In x l -> f x = Raise e -> exists e', map_result f l = Raise e'.
Proof.
  intros Hin Hx. induction l as [|a l IH]; [destruct Hin|].
  cbn [map_result]. destruct (f a) as [y|ea] eqn:Ha; cbn [bind]; [|eauto].
  destruct Hin as [-> | Hin]; [congruence|].
  destruct (IH Hin) as [e' ->]. cbn [bind]. eauto.
Qed.

(** Whatever the line sampler returns is a category of 0..4. *)
Lemma get_max_flood_for_line_range (g : GeoLib) (r : Raster) (d : Q)
  (line : Mapper.Geometry) (c : Z) :
  Mapper.get_max_flood_for_line g (Mapper.new_mapper r d) line = Ok c ->
  0 <= c <= 4.
Proof.
  destruct line as [pt | coords | ls | ring]; cbn [Mapper.get_max_flood_for_line];
    try (intros H; injection H as <-; lia).
  destruct coords as [|c0 rest]; [discriminate|].
  change (Mapper.sample_points g (c0 :: rest))
    with (Ok [c0; interpolate g (c0 :: rest) (1 # 2) true; last rest c0]).
  cbn [bind map_result].
  destruct (Mapper.get_flood_category_at_point g _ c0) as [a|e] eqn:Ha;
    cbn [bind]; [|discriminate].
  destruct (Mapper.get_flood_category_at_point g _ (interpolate g _ _ _))
    as [b|e] eqn:Hb; cbn [bind]; [|discriminate].
  destruct (Mapper.get_flood_category_at_point g _ (last rest c0))
    as [c'|e] eqn:Hc; cbn [bind]; [|discriminate].
  apply get_flood_category_at_point_range in Ha, Hb, Hc.
  cbn [Mapper.py_max fold_left]. intros H; injection H as <-. lia.
Qed.

(** X11: a LineString without vertices makes the line sampler raise
    [IndexError]; and whatever the sampler returns, for any geometry,
    is a category of 0..4. *)
Theorem line_sampler_outcomes (g : GeoLib) (r : Raster) (d : Q) :
  Mapper.get_max_flood_for_line g (Mapper.new_mapper r d) (Mapper.LineString [])
  = Raise IndexError
  /\ forall line c,
       Mapper.get_max_flood_for_line g (Mapper.new_mapper r d) line = Ok c ->
       0 <= c <= 4.
Proof.
  split; [reflexivity|]. intros line c. apply get_max_flood_for_line_range.
Qed.

Lemma line_sampler_outcomes_witness :
  exists c,
    Mapper.get_max_flood_for_line (Grid.env dry_moderate_nuisance)
      (Mapper.new_mapper dry_moderate_nuisance (1 # 4))
      (Mapper.LineString [Grid.centre 0 0; Grid.centre 0 2]) = Ok c
    /\ 0 <= c <= 4.
Proof.
  eexists. split; [reflexivity|].
  apply (proj2 (line_sampler_outcomes (Grid.env dry_moderate_nuisance)
                  dry_moderate_nuisance (1 # 4))
           (Mapper.LineString [Grid.centre 0 0; Grid.centre 0 2])).
  reflexivity.
Defined.

Lemma forall2_range (A : Type) (f : A -> result Z) (l : list A) (cats : list Z) :
  (forall x c, f x = Ok c -> 0 <= c <= 4) ->
  Forall2 (fun x y => f x = Ok y) l cats ->
  List.length cats = List.length l /\ Forall (fun c => 0 <= c <= 4) cats.
Proof.
  intros Hf H. induction H as [|x y l cats Hxy _ [IHlen IHall]].
  - split; [reflexivity | constructor].
  - split; [simpl; lia|]. constructor; [now apply (Hf x) | exact IHall].
Qed.

(** X12: when [assign_flood_categories] returns, every layer that is
    present and not empty carries a [flood_category] column with one
    category of 0..4 per feature and its geometry untouched; a layer
    that is absent or empty is left as it was. *)
Theorem assign_flood_categories_complete (g : GeoLib) (r : Raster) (d : Q)
  (layers layers' : Impact.Layers) :
  Impact.assign_flood_categories g (Mapper.new_mapper r d) layers = Ok layers' ->
  (match Impact.infrastructure_gdf layers with
   | Some gdf =>
       if Impact.empty (Impact.infra_geometry gdf)
       then Impact.infrastructure_gdf layers' = Some gdf
       else exists cats,
              Impact.infrastructure_gdf layers'
              = Some (Impact.mkInfra (Impact.infra_geometry gdf) (Some cats))
              /\ List.length cats = List.length (Impact.infra_geometry gdf)
              /\ Forall (fun c => 0 <= c <= 4) cats
   | None => Impact.infrastructure_gdf layers' = None
   end)
  /\ (match Impact.road_gdf layers with
      | Some gdf =>
          if Impact.empty (Impact.road_geometry gdf)
          then Impact.road_gdf layers' = Some gdf
          else exists cats,
                 Impact.road_gdf layers'
                 = Some (Impact.mkRoads (Impact.road_geometry gdf) (Some cats))
                 /\ List.length cats = List.length (Impact.road_geometry gdf)
                 /\ Forall (fun c => 0 <= c <= 4) cats
      | None => Impact.road_gdf layers' = None
      end).
Proof.
  unfold Impact.assign_flood_categories. intros H.
  destruct (Impact.infrastructure_gdf layers) as [infra|];
    destruct (Impact.road_gdf layers) as [roads|].
  all: try (destruct (Impact.empty (Impact.infra_geometry infra)) eqn:Hie;
            cbn [negb] in H).
  all: try (destruct (map_result _ (Impact.infra_geometry infra))
              as [icats|e] eqn:Hi; cbn [bind] in H; [|discriminate]).
  all: try (destruct (Impact.empty (Impact.road_geometry roads)) eqn:Hre;
            cbn [negb] in H).
  all: try (destruct (map_result _ (Impact.road_geometry roads))
              as [rcats|e] eqn:Hr; cbn [bind] in H; [|discriminate]).
  all: cbn [bind] in H; injection H as <-;
       cbn [Impact.infrastructure_gdf Impact.road_gdf].
  all: split; try reflexivity.
  all: try (exists icats; split; [reflexivity|];
            apply (forall2_range _ (Mapper.get_flood_category_at_point g
                                      (Mapper.new_mapper r d)));
            [apply get_flood_category_at_point_range
            | now apply map_result_forall2]).
  all: try (exists rcats; split; [reflexivity|];
            apply (forall2_range _ (Mapper.get_max_flood_for_line g
                                      (Mapper.new_mapper r d)));
            [apply get_max_flood_for_line_range
            | now apply map_result_forall2]).
Qed.

Lemma assign_flood_categories_complete_witness :
  exists layers',
    Impact.assign_flood_categories (Grid.env dry_moderate_nuisance)
      (Mapper.new_mapper dry_moderate_nuisance (1 # 4)) sample_layers
    = Ok layers'
    /\ Impact.infrastructure_gdf layers'
       = Some (Impact.mkInfra [Grid.centre 0 1; Grid.centre 0 2] (Some [3; 1])).
Proof.
  eexists. split; [reflexivity|].
  destruct (assign_flood_categories_complete (Grid.env dry_moderate_nuisance)
              dry_moderate_nuisance (1 # 4) sample_layers _ eq_refl)
    as [(cats & Hinfra & _) _].
  reflexivity.
Defined.

(** X13: one facility that cannot be placed in the raster's reference
    makes [assign_flood_categories] raise instead of returning the
    layers, whatever the other facilities and the roads are. *)
Theorem assign_flood_categories_aborts (g : GeoLib)
  (self : Mapper.FloodImpactMapper) (layers : Impact.Layers)
  (gdf : Impact.InfrastructureFrame) (p : Coord) (e : exn) :
  Impact.infrastructure_gdf layers = Some gdf ->
  In p (Impact.infra_geometry gdf) ->
  to_crs g p = Raise e ->
  exists e', Impact.assign_flood_categories g self layers = Raise e'.
Proof.
  intros Hgdf Hin Hp. unfold Impact.assign_flood_categories. rewrite Hgdf.
  destruct (Impact.infra_geometry gdf) as [|a l] eqn:Hgeom; [destruct Hin|].
  cbn [Impact.empty negb].
  destruct (map_result_raises _ _ (Mapper.get_flood_category_at_point g self)
              (a :: l) p e Hin) as [e' ->].
  - now apply get_flood_category_at_point_fault.
  - cbn [bind]. eauto.
Qed.

Lemma assign_flood_categories_aborts_witness :
  exists e',
    Impact.assign_flood_categories (Grid.projected_env dry_moderate_nuisance)
      (Mapper.new_mapper dry_moderate_nuisance (1 # 4)) layers_with_unplaceable
    = Raise e'.
Proof.
  apply (assign_flood_categories_aborts
           (Grid.projected_env dry_moderate_nuisance) _ layers_with_unplaceable
           (Impact.mkInfra [Grid.centre 0 1; unplaceable; Grid.centre 0 2] None)
           unplaceable CRSError).
  - reflexivity.
  - right; left; reflexivity.
  - reflexivity.
Defined.

(** ** Reclassification *)

Lemma classify_range (l : list Q) (depth : Q) : 0 <= Prepare.classify l depth <= 4.
Proof.
  unfold Prepare.classify, Prepare.where_ge.
  destruct (Qle_bool (nth 3 l 0%Q) depth); [lia|].
  destruct (Qle_bool (nth 2 l 0%Q) depth); [lia|].
  destruct (Qle_bool (nth 1 l 0%Q) depth); [lia|].
  destruct (Qle_bool (nth 0 l 0%Q) depth); lia.
Qed.

Lemma reclassified_cells (data : list (list Q)) (l : list Q) :
  forallb (forallb (fun v => (0 <=? v) && (v <=? 4)))
          (map (map (Prepare.classify l)) data) = true.
Proof.
  apply forallb_forall. intros row Hrow.
  apply in_map_iff in Hrow as (drow & <- & _).
  apply forallb_forall. intros v Hv.
  apply in_map_iff in Hv as (depth & <- & _).
  pose proof (classify_range l depth). apply andb_true_iff. split; lia.
Qed.

Lemma where_ge_spec (depth t : Q) (k prev : Z) :
  ((t <= depth)%Q /\ Prepare.where_ge depth t k prev = k)
  \/ ((depth < t)%Q /\ Prepare.where_ge depth t k prev = prev).
Proof.
  unfold Prepare.where_ge. destruct (Qle_bool t depth) eqn:E.
  - left. split; [now apply Qle_bool_iff | reflexivity].
  - right. split; [|reflexivity].
    apply Qnot_le_lt. intros H. apply Qle_bool_iff in H. congruence.
Qed.



(** X15: with ascending thresholds the class never falls as the depth
    grows. *)
Theorem classify_monotone (t0 t1 t2 t3 depth depth' : Q) :
  (t0 <= t1)%Q -> (t1 <= t2)%Q -> (t2 <= t3)%Q ->
  (depth <= depth')%Q ->
  Prepare.classify [t0; t1; t2; t3] depth
  <= Prepare.classify [t0; t1; t2; t3] depth'.
Proof.
  intros H01 H12 H23 Hd. unfold Prepare.classify. cbn [nth].
  repeat match goal with
         | |- context [Prepare.where_ge ?x ?t ?k ?prev] =>
             let E := fresh "E" in
             destruct (where_ge_spec x t k prev) as [[? E] | [? E]];
             rewrite E; clear E
         end;
    try lia; exfalso; lra.
Qed.

Lemma classify_monotone_witness :
  Prepare.classify Prepare.default_thresholds (15 # 100)
  <= Prepare.classify Prepare.default_thresholds (7 # 10).
Proof.
  apply (classify_monotone (1 # 10) (2 # 10) (5 # 10) (1 # 1)); discriminate.
Defined.

(** The thresholds a call uses. *)
Lemma reclassify_flood_map_cases (data : list (list Q)) (th : option (list Q)) :
  let l := match th with None => Prepare.default_thresholds | Some l => l end in
  (List.length l = 4%nat
   /\ Prepare.reclassify_flood_map data th
      = Ok (mkRaster (map (map (Prepare.classify l)) data) (Some 255)))
  \/ (List.length l <> 4%nat
      /\ Prepare.reclassify_flood_map data th = Raise ValueError).
Proof.
  intros l. unfold Prepare.reclassify_flood_map. fold l.
  destruct (Nat.eqb_spec (List.length l) 4); cbn [negb]; [left | right]; auto.
Qed.

Lemma reclassified_at_most_4 (data : list (list Q)) (l : list Q) :
  cells_at_most_4 (mkRaster (map (map (Prepare.classify l)) data) (Some 255))
  = true.
Proof.
  unfold cells_at_most_4; cbn [band].
  apply forallb_forall. intros row Hrow.
  apply in_map_iff in Hrow as (drow & <- & _).
  apply forallb_forall. intros v Hv.
  apply in_map_iff in Hv as (depth & <- & _).
  pose proof (classify_range l depth). lia.
Qed.

(** X16: [reclassify_flood_map] raises [ValueError] exactly when the
    thresholds are not four; otherwise the raster it writes has the
    shape of the depth band, declares the no-data value 255, and every
    one of its cells is a category of 0..4: no cell holds the declared
    no-data value, a no-data depth included. *)
Theorem reclassify_flood_map_output (data : list (list Q)) (th : option (list Q)) :
  let l := match th with None => Prepare.default_thresholds | Some l => l end in
  (List.length l <> 4%nat <->
   Prepare.reclassify_flood_map data th = Raise ValueError)
  /\ forall r, Prepare.reclassify_flood_map data th = Ok r ->
       nodata r = Some 255
       /\ Forall2 (fun row depths => List.length row = List.length depths)
                  (band r) data
       /\ forallb (forallb (fun v => (0 <=? v) && (v <=? 4))) (band r) = true
       /\ valid_raster r = true.
Proof.
  intros l. destruct (reclassify_flood_map_cases data th) as [[Hl Heq] | [Hl Heq]];
    fold l in Hl, Heq; rewrite Heq.
  - split; [split; [intros H; contradiction | discriminate]|].
    intros r H; injection H as <-. cbn [nodata band].
    split; [reflexivity|]. split.
    + clear Heq. induction data as [|row data IH]; cbn [map]; constructor;
        [apply length_map | exact IH].
    + split; [apply reclassified_cells|].
      unfold valid_raster; cbn [band].
      pose proof (reclassified_cells data l) as Hc.
      rewrite forallb_forall in *. intros row Hrow. specialize (Hc row Hrow).
      rewrite forallb_forall in *. intros v Hv. unfold valid_cell.
      now rewrite (Hc v Hv).
  - split; [split; auto | discriminate].
Qed.

Lemma reclassify_flood_map_output_witness :
  exists r,
    Prepare.reclassify_flood_map sample_depths None = Ok r
    /\ band r = [[0; 1; 2]; [3; 4; 0]]
    /\ valid_raster r = true.
Proof.
  eexists. split; [reflexivity|]. split; [reflexivity|].
  apply (proj2 (reclassify_flood_map_output sample_depths None) _ eq_refl).
Defined.

(** X17: a raster that [reclassify_flood_map] produced is safe for the
    accuracy analysis: on it [check_flood_at_point] returns a category
    of 0..4 for every point, and [analyze_flood_accuracy] returns a
    result whenever the claims can be reprojected. *)
Theorem reclassified_raster_is_safe (data : list (list Q)) (th : option (list Q))
  (r : Raster) (g : GeoLib) :
  Prepare.reclassify_flood_map data th = Ok r ->
  (forall p d, exists c,
      check_flood_at_point g p r d = Ok c /\ 0 <= c <= 4)
  /\ (forall df crs,
        List.length (geometry df) = List.length (index df) ->
        frame_to_crs g df = Ok crs ->
        exists res, analyze_flood_accuracy g r df = Ok res).
Proof.
  intros Hr.
  assert (Hb : cells_at_most_4 r = true).
  { destruct (reclassify_flood_map_cases data th) as [[_ Heq] | [_ Heq]];
      rewrite Heq in Hr; [|discriminate].
    injection Hr as <-. apply reclassified_at_most_4. }
  assert (Hres : forall p d, exists c,
            check_flood_at_point g p r d = Ok c /\ 0 <= c <= 4).
  { intros p d.
    destruct (check_flood_at_point_cases g r d p)
      as [H | [(q & _ & H) | (row & col & Hpos & H)]]; rewrite H;
      eexists; (split; [reflexivity|]).
    - lia.
    - split; [apply region_max_nonneg | now apply region_max_at_most_4].
    - split; [lia | now apply cell_at_most_4]. }
  split; [exact Hres|].
  intros df crs Hlen Hcrs.
  destruct (analyze_flood_accuracy_unfold g r df crs Hlen Hcrs) as (claims & _ & ->).
  destruct (Z.of_nat (List.length claims) =? 0); [eauto|].
  destruct (check_each_claim_returns g r claims 0 empty_histogram) as [counted ->].
  - intros claim. destruct (Hres claim (2 # 100000)) as (c & Hc & Hrange).
    exists c. split; [exact Hc|].
    unfold empty_histogram; cbn [map fst In]. lia.
  - cbn [bind]. eauto.
Qed.

Lemma reclassified_raster_is_safe_witness :
  exists r c,
    Prepare.reclassify_flood_map sample_depths None = Ok r
    /\ check_flood_at_point (Grid.env r) (Grid.centre 1 2) r (3 # 2) = Ok c
    /\ 0 <= c <= 4.
Proof.
  eexists.
  destruct (reclassified_raster_is_safe sample_depths None _
              (Grid.env (mkRaster [[0; 1; 2]; [3; 4; 0]] (Some 255))) eq_refl)
    as [Hres _].
  destruct (Hres (Grid.centre 1 2) (3 # 2)) as (c & Hc & Hrange).
  exists c. split; [reflexivity|]. split; [exact Hc | exact Hrange].
Defined.

(** ** The overlay image *)

Lemma overlay_pixel_cases (v : Z) :
  (v = 0 /\ Impact.overlay_pixel v = (255, 255, 255, 0))
  \/ (v = 1 /\ Impact.overlay_pixel v = (255, 200, 200, 128))
  \/ (v = 2 /\ Impact.overlay_pixel v = (255, 128, 128, 160))
  \/ (v = 3 /\ Impact.overlay_pixel v = (255, 0, 0, 192))
  \/ (v = 4 /\ Impact.overlay_pixel v = (128, 0, 128, 224))
  \/ (~ (0 <= v <= 4) /\ Impact.overlay_pixel v = (0, 0, 0, 0)).
Proof.
  unfold Impact.overlay_pixel; cbn [fold_left].
  destruct (Z.eqb_spec v 0) as [-> | H0]; [now left|].
  destruct (Z.eqb_spec v 1) as [-> | H1]; [right; now left|].
  destruct (Z.eqb_spec v 2) as [-> | H2]; [do 2 right; now left|].
  destruct (Z.eqb_spec v 3) as [-> | H3]; [do 3 right; now left|].
  destruct (Z.eqb_spec v 4) as [-> | H4]; [do 4 right; now left|].
  do 5 right. split; [lia | reflexivity].
Qed.

(** X18: the overlay image has one pixel per raster cell, and a pixel
    is drawn (its alpha is not 0) exactly on the cells of category
    1..4: dry cells and cells of any other value, a no-data sentinel
    included, stay transparent. *)
Theorem flood_overlay_shows_flooded_cells (flood_data : Raster) :
  Forall2
    (Forall2 (fun px v => Impact.alpha px <> 0 <-> 1 <= v <= 4))
    (Impact.flood_overlay flood_data) (band flood_data).
Proof.
  unfold Impact.flood_overlay.
  induction (band flood_data) as [|row rows IH]; constructor; [|exact IH].
  induction row as [|v row IHr]; constructor; [|exact IHr].
  destruct (overlay_pixel_cases v)
    as [[-> ->] | [[-> ->] | [[-> ->] | [[-> ->] | [[-> ->] | [Hout ->]]]]]];
    cbn; split; intros; try lia; try discriminate; try congruence.
Qed.

(** ** The two resolvers side by side *)

(** X20: on a raster none of whose cells exceeds 4, and for a point that
    can be reprojected, both resolvers return, the mapper never reports
    a higher category than the analyzer with the same radius, and they
    differ only on a cell that holds 0. *)
Theorem mapper_never_above_analyzer (g : GeoLib) (r : Raster) (d : Q)
  (p q : Coord) (row col : Z) :
  cells_at_most_4 r = true ->
  to_crs g p = Ok q -> rowcol g q = (row, col) ->
  exists a m,
    Analyzer.check_flood_at_point g p r d = Ok a
    /\ Mapper.get_flood_category_at_point g (Mapper.new_mapper r d) p = Ok m
    /\ m <= a
    /\ (m <> a -> in_bounds r row col = true /\ cell r row col = 0).
Proof.
  intros Hr Hq Hrc.
  pose proof (region_max_nonneg g r (buffer g q d)) as Hn.
  pose proof (region_max_at_most_4 g r (buffer g q d) Hr) as Hu.
  pose proof (cell_at_most_4 r row col Hr) as Hc.
  assert (Hclip : (if max_category_in_region g r (buffer g q d) <=? 4
                   then max_category_in_region g r (buffer g q d) else 0)
                  = max_category_in_region g r (buffer g q d)).
  { destruct (Z.leb_spec (max_category_in_region g r (buffer g q d)) 4); lia. }
  destruct (in_bounds r row col) eqn:Hb.
  - destruct (Z.lt_trichotomy (cell r row col) 0) as [Hneg | [Hzero | Hpos]].
    + exists (max_category_in_region g r (buffer g q d)),
             (max_category_in_region g r (buffer g q d)).
      rewrite (check_flood_at_point_fallback g r d p q row col Hq Hrc)
        by (right; lia).
      rewrite (get_flood_category_at_point_fallback g r d p q row col Hq Hrc)
        by (right; lia).
      rewrite Hclip. repeat split; lia.
    + exists (max_category_in_region g r (buffer g q d)), 0.
      rewrite (check_flood_at_point_fallback g r d p q row col Hq Hrc)
        by (right; lia).
      rewrite (get_flood_category_at_point_exact g r d p q row col Hq Hrc Hb)
        by lia.
      rewrite Hzero. repeat split; try lia; auto.
    + exists (cell r row col), (cell r row col).
      rewrite (check_flood_at_point_exact g r d p q row col Hq Hrc Hb Hpos).
      rewrite (get_flood_category_at_point_exact g r d p q row col Hq Hrc Hb)
        by lia.
      repeat split; lia.
  - exists (max_category_in_region g r (buffer g q d)),
           (max_category_in_region g r (buffer g q d)).
    rewrite (check_flood_at_point_fallback g r d p q row col Hq Hrc) by auto.
    rewrite (get_flood_category_at_point_fallback g r d p q row col Hq Hrc)
      by auto.
    rewrite Hclip. repeat split; lia.
Qed.

Lemma mapper_never_above_analyzer_witness :
  exists a m,
    Analyzer.check_flood_at_point (Grid.env dry_next_to_minor)
      (Grid.centre 0 0) dry_next_to_minor (3 # 2) = Ok a
    /\ Mapper.get_flood_category_at_point (Grid.env dry_next_to_minor)
         (Mapper.new_mapper dry_next_to_minor (3 # 2)) (Grid.centre 0 0) = Ok m
    /\ m <= a.
Proof.
  destruct (mapper_never_above_analyzer (Grid.env dry_next_to_minor)
              dry_next_to_minor (3 # 2) (Grid.centre 0 0) (Grid.centre 0 0) 0 0
              eq_refl eq_refl eq_refl) as (a & m & Ha & Hm & Hle & _).
  exists a, m. split; [exact Ha|]. split; [exact Hm | exact Hle].
Defined.

(** ** What deduplication removes and what it leaves *)

Lemma kept_rows_first (d : Z) (df : GeoDataFrame) (c : Coord) (rest : list Coord) :
  geometry df = c :: rest ->
  exists bs, kept_rows d df = true :: bs.
Proof.
  intros Hg. rewrite kept_rows_coords, Hg. cbn [dup_coords map existsb negb]. eauto.
Qed.

(** X21: the count [filter_unique_features] reports is the number of
    features it removed and is never negative, and the first feature is
    always kept: a collection that is not empty never comes back
    empty. *)
Theorem dedup_reports_removed (df : GeoDataFrame) (precision : Q) (out : Filtered) :
  well_formed df = true ->
  filter_unique_features df precision = Ok out ->
  0 <= reported out
  /\ len (unique_claims out) + reported out = len df
  /\ (0 < len df -> 0 < len (unique_claims out)
                    /\ nth_error (index (unique_claims out)) 0
                       = nth_error (index df) 0).
Proof.
  intros Hwf Hout.
  destruct (decimals_of precision) as [d|e] eqn:Hd.
  2: { unfold filter_unique_features in Hout. rewrite Hd in Hout. discriminate. }
  destruct (well_formed_lengths df Hwf) as [Hlen _].
  rewrite (filter_unique_features_unfold df precision d Hd) in Hout.
  injection Hout as <-. cbn [unique_claims reported].
  rewrite (unique_claims_columns d df Hlen).
  unfold len, with_rounded, set_column; cbn [index].
  pose proof (take_rows_length_le _ (kept_rows d df) (index df)) as Hle.
  split; [lia|]. split; [lia|].
  intros Hpos.
  destruct (index df) as [|i0 idx] eqn:Hidx; [simpl in Hpos; lia|].
  destruct (geometry df) as [|c rest] eqn:Hgeom; [simpl in Hlen; lia|].
  destruct (kept_rows_first d df c rest Hgeom) as [bs ->].
  cbn [take_rows List.length nth_error]. split; [lia | reflexivity].
Qed.

Lemma dedup_reports_removed_witness :
  exists out,
    filter_unique_features three_claims (1 # 100000) = Ok out
    /\ len (unique_claims out) + reported out = 3.
Proof.
  eexists. split; [reflexivity|].
  destruct (dedup_reports_removed three_claims (1 # 100000) _ eq_refl eq_refl)
    as (_ & Hsum & _).
  exact Hsum.
Defined.

(** X22: what the call leaves of the caller's frame: its row labels, its
    geometry and every column not named [rounded_x] or [rounded_y] are
    as before; only the two rounded columns are written. *)
Theorem dedup_frame_effect (df : GeoDataFrame) (precision : Q) (out : Filtered) :
  filter_unique_features df precision = Ok out ->
  index (claims_gdf_after out) = index df
  /\ geometry (claims_gdf_after out) = geometry df
  /\ filter not_scratch (columns (claims_gdf_after out))
     = filter not_scratch (columns df)
  /\ forall name, existsb (String.eqb name) scratch = false ->
       get_item name (columns (claims_gdf_after out))
       = get_item name (columns df).
Proof.
  intros Hout.
  destruct (decimals_of precision) as [d|e] eqn:Hd.
  2: { unfold filter_unique_features in Hout. rewrite Hd in Hout. discriminate. }
  rewrite (filter_unique_features_unfold df precision d Hd) in Hout.
  injection Hout as <-. cbn [claims_gdf_after].
  unfold with_rounded, set_column; cbn [index geometry columns].
  split; [reflexivity|]. split; [reflexivity|]. split.
  - rewrite !filter_set_item_scratch by reflexivity. reflexivity.
  - intros name Hname. unfold scratch in Hname. cbn [existsb] in Hname.
    apply orb_false_iff in Hname as [Hx Hy].
    apply orb_false_iff in Hy as [Hy _].
    rewrite !get_set_item_other; [reflexivity | |].
    + now rewrite String.eqb_sym.
    + now rewrite String.eqb_sym.
Qed.

Lemma dedup_frame_effect_witness :
  exists out,
    filter_unique_features three_claims (1 # 100000) = Ok out
    /\ get_item "claim_id" (columns (claims_gdf_after out))
       = [VInt 7; VInt 8; VInt 9].
Proof.
  eexists. split; [reflexivity|].
  destruct (dedup_frame_effect three_claims (1 # 100000) _ eq_refl)
    as (_ & _ & _ & Hcol).
  rewrite Hcol; reflexivity.
Defined.

(** * Deduplication over any rounding *)

Lemma filter_unique_features_exact (df : GeoDataFrame) (precision : Q) :
  filter_unique_features_np exact_numpy df precision
  = filter_unique_features df precision.
Proof. reflexivity. Qed.

Section AnyRounding.

Variable np : Numpy.

Lemma filter_unique_features_np_unfold (df : GeoDataFrame) (precision : Q) (d : Z) :
  np_decimals np precision = Ok d ->
  filter_unique_features_np np df precision
  = Ok (mkFiltered (with_rounded_np np d df)
          (drop scratch (drop_duplicates scratch (with_rounded_np np d df)))
          (len (with_rounded_np np d df)
           - len (drop scratch (drop_duplicates scratch (with_rounded_np np d df))))).
Proof.
  intros Hd. unfold filter_unique_features_np. rewrite Hd. reflexivity.
Qed.

Lemma subset_keys_rounded_np (d : Z) (df : GeoDataFrame) :
  List.length (geometry df) = List.length (index df) ->
  subset_keys scratch (with_rounded_np np d df)
  = map (rounded_key_np np d) (geometry df).
Proof.
  intros Hlen. unfold subset_keys, with_rounded_np, set_column, scratch.
  cbn [index columns map]. rewrite <- Hlen.
  rewrite get_set_item_other by reflexivity.
  rewrite !get_set_item_same.
  apply (keys_by_position Coord
           (fun c => VFloat (np_round np d (fst c)))
           (fun c => VFloat (np_round np d (snd c)))).
Qed.

Lemma key_eqb_rounded_np (d : Z) (a b : Coord) :
  key_eqb (rounded_key_np np d a) (rounded_key_np np d b)
  = same_rounded_np np d a b.
Proof.
  unfold key_eqb, rounded_key_np, same_rounded_np; cbn.
  now rewrite andb_true_r.
Qed.

(** A row is kept exactly when no earlier row rounds to its coordinate. *)
Lemma kept_rows_np_spec (d : Z) (df : GeoDataFrame) (i : nat) :
  (i < List.length (geometry df))%nat ->
  nth i (kept_rows_np np d df) false = true <->
  forall j, (j < i)%nat ->
    same_rounded_np np d (nth i (geometry df) (0, 0)%Q)
                         (nth j (geometry df) (0, 0)%Q)
    = false.
Proof.
  intros Hi. unfold kept_rows_np, duplicated.
  set (keys := map (rounded_key_np np d) (geometry df)).
  assert (Hk : List.length keys = List.length (geometry df))
    by (unfold keys; apply length_map).
  assert (Hn : forall j, (j < List.length (geometry df))%nat ->
             nth j keys [] = rounded_key_np np d (nth j (geometry df) (0, 0)%Q)).
  { intros j Hj. unfold keys.
    rewrite (nth_indep _ [] (rounded_key_np np d (0, 0)%Q))
      by (rewrite length_map; exact Hj).
    apply map_nth. }
  rewrite (nth_indep _ false (negb true))
    by (rewrite length_map, duplicated_from_length; lia).
  rewrite map_nth.
  rewrite (nth_indep _ true false) by (rewrite duplicated_from_length; lia).
  rewrite negb_true_iff, <- not_true_iff_false.
  rewrite duplicated_from_spec by lia. cbn [existsb].
  split.
  - intros Hno j Hj. apply not_true_iff_false. intros He. apply Hno. right.
    exists j. split; [exact Hj|].
    rewrite (Hn i Hi), (Hn j ltac:(lia)), key_eqb_rounded_np. exact He.
  - intros Hall [Hf | (j & Hj & He)]; [discriminate|].
    rewrite (Hn i Hi), (Hn j ltac:(lia)), key_eqb_rounded_np in He.
    rewrite (Hall j Hj) in He. discriminate.
Qed.

Lemma kept_rows_np_length (d : Z) (df : GeoDataFrame) :
  List.length (kept_rows_np np d df) = List.length (geometry df).
Proof.
  unfold kept_rows_np, duplicated.
  now rewrite length_map, duplicated_from_length, length_map.
Qed.

(** What the deduplicator returns, column by column. *)
Lemma unique_claims_np_columns (d : Z) (df : GeoDataFrame) :
  List.length (geometry df) = List.length (index df) ->
  drop scratch (drop_duplicates scratch (with_rounded_np np d df))
  = mkFrame (take_rows (kept_rows_np np d df) (index df))
            (take_rows (kept_rows_np np d df) (geometry df))
            (map (fun c => (fst c, take_rows (kept_rows_np np d df) (snd c)))
                 (filter not_scratch (columns df))).
Proof.
  intros Hlen. unfold drop, drop_duplicates.
  rewrite (subset_keys_rounded_np d df Hlen). fold (kept_rows_np np d df).
  cbn [index geometry columns]. f_equal.
  change (fun c : string * list Value =>
            negb (existsb (String.eqb (fst c)) scratch)) with not_scratch.
  unfold with_rounded_np, set_column; cbn [columns].
  set (f := fun c : string * list Value =>
              (fst c, take_rows (kept_rows_np np d df) (snd c))).
  assert (Hcomm : forall cols, filter not_scratch (map f cols)
                               = map f (filter not_scratch cols)).
  { induction cols as [|c cols IH]; [reflexivity|].
    cbn [map filter]. change (not_scratch (f c)) with (not_scratch c).
    destruct (not_scratch c); cbn [map]; now rewrite IH. }
  rewrite Hcomm. f_equal.
  rewrite !filter_set_item_scratch by reflexivity. reflexivity.
Qed.

End AnyRounding.

(** C6, as the code has it: for every precision at which
    [int(-np.log10(precision))] evaluates to a number [d] of decimals,
    the deduplicator writes the [x] and [y] of every feature, rounded
    to [d] decimals, into the columns [rounded_x] and [rounded_y], and
    returns the rows selected by a mask [keep] that keeps a row exactly
    when no earlier row has the same rounded coordinate, in the
    original order and without those two columns, reporting the number
    of rows removed; when no two rows share a rounded coordinate the
    row labels, the geometry and every column not named [rounded_x] or
    [rounded_y] come back as they were, the whole collection when it
    has no column of those names, with 0 removed; and when all N >= 1
    rows share one rounded coordinate exactly 1 row comes back with
    N - 1 removed. *)
Theorem dedup_keeps_first (np : Numpy) (df : GeoDataFrame) (precision : Q) (d : Z) :
  well_formed df = true ->
  np_decimals np precision = Ok d ->
  exists out keep,
    filter_unique_features_np np df precision = Ok out
    /\ get_item "rounded_x" (columns (claims_gdf_after out))
       = map (fun c => VFloat (np_round np d (fst c))) (geometry df)
    /\ get_item "rounded_y" (columns (claims_gdf_after out))
       = map (fun c => VFloat (np_round np d (snd c))) (geometry df)
    /\ List.length keep = List.length (index df)
    /\ (forall i, (i < List.length keep)%nat ->
        nth i keep false = true <->
        forall j, (j < i)%nat ->
          same_rounded_np np d (nth i (geometry df) (0, 0)%Q)
                               (nth j (geometry df) (0, 0)%Q) = false)
    /\ index (unique_claims out) = take_rows keep (index df)
    /\ geometry (unique_claims out) = take_rows keep (geometry df)
    /\ columns (unique_claims out)
       = map (fun c => (fst c, take_rows keep (snd c)))
             (filter not_scratch (columns df))
    /\ reported out = len df - len (unique_claims out)
    /\ ((forall i j, (j < i < List.length (index df))%nat ->
           same_rounded_np np d (nth i (geometry df) (0, 0)%Q)
                                (nth j (geometry df) (0, 0)%Q) = false) ->
        unique_claims out = drop scratch df
        /\ (forallb not_scratch (columns df) = true -> unique_claims out = df)
        /\ reported out = 0)
    /\ ((0 < List.length (index df))%nat ->
        (forall i, (i < List.length (index df))%nat ->
           same_rounded_np np d (nth i (geometry df) (0, 0)%Q)
                                (nth 0 (geometry df) (0, 0)%Q) = true) ->
        len (unique_claims out) = 1 /\ reported out = len df - 1).
Proof.
  intros Hwf Hd.
  destruct (well_formed_lengths df Hwf) as [Hlen Hcols].
  eexists. exists (kept_rows_np np d df).
  split; [apply (filter_unique_features_np_unfold np df precision d Hd)|].
  cbn [unique_claims reported claims_gdf_after].
  split.
  { unfold with_rounded_np, set_column; cbn [columns geometry].
    rewrite get_set_item_other by reflexivity. apply get_set_item_same. }
  split.
  { unfold with_rounded_np, set_column; cbn [columns geometry].
    apply get_set_item_same. }
  rewrite (unique_claims_np_columns np d df Hlen).
  cbn [index geometry columns].
  assert (Hklen : List.length (kept_rows_np np d df) = List.length (index df))
    by (rewrite kept_rows_np_length; exact Hlen).
  assert (Hspec : forall i, (i < List.length (kept_rows_np np d df))%nat ->
            nth i (kept_rows_np np d df) false = true <->
            forall j, (j < i)%nat ->
              same_rounded_np np d (nth i (geometry df) (0, 0)%Q)
                                   (nth j (geometry df) (0, 0)%Q) = false).
  { intros i Hi. apply kept_rows_np_spec.
    rewrite kept_rows_np_length in Hi. exact Hi. }
  split; [exact Hklen|].
  split; [exact Hspec|].
  split; [reflexivity|]. split; [reflexivity|]. split; [reflexivity|].
  split; [reflexivity|].
  split.
  - intros Hdistinct.
    assert (Hall : forall i, (i < List.length (kept_rows_np np d df))%nat ->
              nth i (kept_rows_np np d df) false = true).
    { intros i Hi. apply Hspec; [exact Hi|]. intros j Hj.
      apply Hdistinct. lia. }
    assert (Heq : mkFrame (take_rows (kept_rows_np np d df) (index df))
                    (take_rows (kept_rows_np np d df) (geometry df))
                    (map (fun c => (fst c, take_rows (kept_rows_np np d df) (snd c)))
                         (filter not_scratch (columns df)))
                  = drop scratch df).
    { unfold drop.
      change (fun c : string * list Value =>
                negb (existsb (String.eqb (fst c)) scratch)) with not_scratch.
      rewrite !take_rows_all by (exact Hall || lia).
      rewrite (take_rows_all_columns _ (List.length (index df))); auto.
      apply Forall_forall. intros c Hin. apply filter_In in Hin as [Hin _].
      rewrite Forall_forall in Hcols. now apply Hcols. }
    rewrite Heq. split; [reflexivity|]. split.
    + intros Hns. unfold drop.
      change (fun c : string * list Value =>
                negb (existsb (String.eqb (fst c)) scratch)) with not_scratch.
      rewrite (filter_not_scratch_id _ Hns). now destruct df.
    + unfold len, drop, with_rounded_np, set_column; cbn [index]. lia.
  - intros Hn Hsame.
    assert (Hone : List.length (take_rows (kept_rows_np np d df) (index df)) = 1%nat).
    { destruct (kept_rows_np np d df) as [|b bs] eqn:Hk;
        [simpl in Hklen; lia|].
      destruct (index df) as [|x xs] eqn:Hi; [simpl in Hn; lia|].
      assert (Hb : b = true).
      { apply (Hspec 0%nat); [simpl; lia|]. intros j Hj; lia. }
      subst b. cbn [take_rows].
      rewrite take_rows_none; [reflexivity|].
      intros i Hi'. apply not_true_iff_false. intros Ht.
      assert (HSi : (S i < List.length (true :: bs))%nat) by (simpl; lia).
      pose proof (proj1 (Hspec (S i) HSi) Ht 0%nat (Nat.lt_0_succ i)) as HS.
      rewrite Hsame in HS; [discriminate|].
      simpl in Hklen. simpl. lia. }
    unfold len; cbn [index]. rewrite Hone.
    unfold with_rounded_np, set_column; cbn [index]. lia.
Qed.

(** At the precision 1/32, which gives 1 decimal, the first two of
    [dyadic_claims] round to (0.1, 0.5) and the second is removed; at 5
    decimals they would differ. *)
Lemma dedup_keeps_first_witness :
  well_formed dyadic_claims = true
  /\ np_decimals exact_numpy (1 # 32) = Ok 1
  /\ same_rounded_np exact_numpy 5 (1 # 8, 1 # 2)%Q (17 # 128, 1 # 2)%Q = false
  /\ exists out,
       filter_unique_features_np exact_numpy dyadic_claims (1 # 32) = Ok out
       /\ index (unique_claims out) = [0; 2]
       /\ reported out = 1.
Proof.
  split; [reflexivity|]. split; [reflexivity|]. split; [reflexivity|].
  destruct (dedup_keeps_first exact_numpy dyadic_claims (1 # 32) 1 eq_refl eq_refl)
    as (out & keep & Hout & _).
  exists out. split; [exact Hout|].
  vm_compute in Hout. injection Hout as <-. split; reflexivity.
Defined.

(** C6 as stated fails on "returned unchanged": the single claim of
    [claim_with_rounded_x] is unique, yet the collection that comes
    back has lost the caller's column [rounded_x]. *)
Lemma dedup_keeps_first_counterexample :
  ~ (exists out,
       filter_unique_features_np exact_numpy claim_with_rounded_x (1 # 32) = Ok out
       /\ unique_claims out = claim_with_rounded_x
       /\ reported out = 0).
Proof.
  intros (out & Hout & Hsame & _).
  vm_compute in Hout. injection Hout as <-.
  apply (f_equal (fun f => List.length (columns f))) in Hsame.
  vm_compute in Hsame. discriminate Hsame.
Qed.


(** * The features the run counts *)

Lemma take_rows_In (A : Type) (keep : list bool) (l : list A) (x : A) :
  In x (take_rows keep l) -> In x l.
Proof.
  revert l; induction keep as [|b bs IH]; intros l H; [destruct H|].
  destruct l as [|y ys]; [destruct H|].
  cbn [take_rows] in H. destruct b.
  - destruct H as [-> | H]; [now left | right; now apply IH].
  - right. now apply IH.
Qed.

(** The run, once the claims are reprojected, with the claims it counts
    made explicit: a selection of the features inside the footprint. *)
Lemma analyze_flood_accuracy_selection (g : GeoLib) (r : Raster)
  (df crs : GeoDataFrame) :
  List.length (geometry df) = List.length (index df) ->
  frame_to_crs g df = Ok crs ->
  exists keep,
    let claims := take_rows keep (filter (footprint g) (geometry crs)) in
    analyze_flood_accuracy g r df
    = if Z.of_nat (List.length claims) =? 0
      then Ok (mkResult 0 0 0 empty_histogram)
      else
        counted <- check_each_claim g r claims 0 empty_histogram ;;
        Ok (mkResult (Z.of_nat (List.length claims)) (fst counted)
              (if 0 <? Z.of_nat (List.length claims)
               then (inject_Z (fst counted)
                     / inject_Z (Z.of_nat (List.length claims)))%Q
               else 0%Q)
              (snd counted)).
Proof.
  intros Hlen Hcrs.
  assert (Hgeom : List.length (geometry crs) = List.length (index crs)).
  { unfold frame_to_crs in Hcrs.
    destruct (map_result (to_crs g) (geometry df)) as [gs|e] eqn:Hm;
      cbn [bind] in Hcrs; [|discriminate].
    injection Hcrs as <-. cbn [geometry index].
    rewrite (map_result_length _ _ _ _ _ Hm). exact Hlen. }
  assert (Hov : List.length (geometry (overlay g crs))
                = List.length (index (overlay g crs))).
  { unfold overlay; cbn [geometry index]. rewrite length_map, length_seq.
    now apply take_rows_length. }
  assert (Hin : geometry (overlay g crs) = filter (footprint g) (geometry crs)).
  { unfold overlay; cbn [geometry]. apply take_rows_map_filter. }
  exists (kept_rows 5 (overlay g crs)). cbv zeta. rewrite <- Hin.
  unfold analyze_flood_accuracy. rewrite Hcrs; cbn [bind].
  rewrite (filter_unique_features_unfold _ _ 5 default_precision_decimals).
  cbn [bind unique_claims].
  rewrite (unique_claims_columns 5 _ Hov).
  remember (overlay g crs) as cropped eqn:Hcropped.
  unfold len; cbn [index geometry].
  rewrite (take_rows_length _ _ (kept_rows 5 cropped) (index cropped)
             (geometry cropped)) by (symmetry; exact Hov).
  destruct (Z.of_nat (List.length (take_rows (kept_rows 5 cropped)
                                     (geometry cropped))) =? 0);
    [reflexivity|].
  destruct (check_each_claim g r _ 0 _) as [[covered hist]|e];
    reflexivity.
Qed.

(** X6: only features inside the raster's footprint are counted: the
    claims the run iterates over are a selection, in their order, of
    the reprojected features that intersect the footprint, so a
    feature outside it is never among them; [total_claims] is their
    number, and [covered_claims] and the histogram are those of the
    loop over them. *)
Theorem outside_footprint_not_counted (g : GeoLib) (r : Raster)
  (df crs : GeoDataFrame) (res : AccuracyResult) :
  List.length (geometry df) = List.length (index df) ->
  frame_to_crs g df = Ok crs ->
  analyze_flood_accuracy g r df = Ok res ->
  exists keep claims,
    claims = take_rows keep (filter (footprint g) (geometry crs))
    /\ (forall c, In c claims -> In c (geometry crs) /\ footprint g c = true)
    /\ (forall c, footprint g c = false -> ~ In c claims)
    /\ total_claims res = Z.of_nat (List.length claims)
    /\ ((claims = [] /\ res = mkResult 0 0 0 empty_histogram)
        \/ check_each_claim g r claims 0 empty_histogram
           = Ok (covered_claims res, flood_categories res)).
Proof.
  intros Hlen Hcrs Hres.
  destruct (analyze_flood_accuracy_selection g r df crs Hlen Hcrs) as (keep & Heq).
  cbv zeta in Heq. rewrite Heq in Hres. clear Heq.
  exists keep, (take_rows keep (filter (footprint g) (geometry crs))).
  set (claims := take_rows keep (filter (footprint g) (geometry crs))) in *.
  assert (Hinside : forall c, In c claims ->
            In c (geometry crs) /\ footprint g c = true).
  { intros c Hc. apply take_rows_In in Hc. now apply filter_In in Hc. }
  split; [reflexivity|]. split; [exact Hinside|]. split.
  { intros c Hout Hc. destruct (Hinside c Hc) as [_ Hfp]. congruence. }
  destruct (Z.eqb_spec (Z.of_nat (List.length claims)) 0) as [Hz | Hnz].
  - injection Hres as <-. cbn [total_claims]. split; [lia|]. left.
    split; [|reflexivity]. destruct claims; [reflexivity | simpl in Hz; lia].
  - destruct (check_each_claim g r claims 0 empty_histogram)
      as [[covered hist]|e]; cbn [bind] in Hres; [|discriminate].
    injection Hres as <-. cbn [total_claims covered_claims flood_categories fst snd].
    split; [reflexivity|]. now right.
Qed.

(** Of a claim inside and a claim outside the footprint, only the first
    is counted. *)
Lemma outside_footprint_not_counted_witness :
  exists res,
    analyze_flood_accuracy (Grid.env dry_next_to_minor) dry_next_to_minor
      (mkFrame [0; 1] [Grid.centre 0 1; (100 # 1, 100 # 1)%Q] []) = Ok res
    /\ total_claims res = 1.
Proof.
  eexists. split; [reflexivity|].
  destruct (outside_footprint_not_counted (Grid.env dry_next_to_minor)
              dry_next_to_minor
              (mkFrame [0; 1] [Grid.centre 0 1; (100 # 1, 100 # 1)%Q] [])
              (mkFrame [0; 1] [Grid.centre 0 1; (100 # 1, 100 # 1)%Q] [])
              _ eq_refl eq_refl eq_refl)
    as (keep & claims & _ & _ & Hout & Htotal & _).
  reflexivity.
Defined.
